(** * CineSuggest: the request handlers of [app.py] over a relational store

    The development embeds the SQLAlchemy models and the Flask routes of
    [app.py] as functions over an explicit database value, and proves the
    properties of the recommendation scorer, the review routes, the
    watchlist toggle and the survey. *)

From Stdlib Require Import ZArith QArith Qcanon String Ascii List Sorted Permutation Lia.
From stdpp Require Import base numbers option list strings gmap sets.

#[local] Set Warnings "-clear-no-such-hyp".

Local Open Scope Z_scope.
Local Open Scope string_scope.

(** ** Data model *)

(** A model instance is its primary key paired with its remaining columns;
    a table is a finite map from primary keys to rows. *)
Abbreviation obj T := (Z * T)%type.

(** The Python value the [rating] column of a stored review reads as.  The
    column is declared [Integer] and SQLite gives it INTEGER affinity: it
    holds an integer, a real (here by its IEEE 754 binary64 bits), or a text
    that is no numeral. *)
Inductive PyVal :=
| PyInt (n : Z)
| PyFloat (bits : Z)
| PyStr (s : string).

(** [class Review]: an [Integer] column [rating], [text], [timestamp]
    (microseconds since the epoch) and the two nullable foreign keys. *)
Record Review := {
  review_rating : PyVal;
  review_text : option string;
  review_timestamp : option Z;
  review_user_id : option Z;
  review_movie_id : option Z
}.

(** [class User].  The two Boolean columns are read only through [not x] and
    [x and ...], where NULL acts as [False]. *)
Record User := {
  username : string;
  password_hash : string;
  has_completed_survey : bool;
  is_admin : bool;
  bio : option string;
  avatar_path : string
}.

(** [class Movie].  The [Float] column [rating] is carried as a rational; no
    modelled route computes with it. *)
Record Movie := {
  title : string;
  overview : option string;
  poster_path : string;
  movie_rating : option Qc
}.

Record Genre := { genre_name : string }.
Record Language := { language_name : string }.

(** The database: five entity tables and the six association tables, each
    association table with its composite primary key, hence a set of pairs. *)
Record DB := {
  user_table : gmap Z User;
  movie_table : gmap Z Movie;
  genre_table : gmap Z Genre;
  language_table : gmap Z Language;
  review_table : gmap Z Review;
  user_genre_preferences : gset (Z * Z);
  user_liked_movies : gset (Z * Z);
  user_language_preferences : gset (Z * Z);
  movie_genres : gset (Z * Z);
  movie_languages : gset (Z * Z);
  user_watchlist : gset (Z * Z)
}.

(** ** Queries *)

(** [sorted(items, key=..., reverse=True)] and SQL's [ORDER BY], both taken
    stable: [before y x] says that [y] sorts strictly ahead of [x]; an item
    is placed behind exactly the items that sort strictly ahead of it. *)
Fixpoint sorted_insert {A} (before : A → A → bool) (x : A) (l : list A)
    : list A :=
  match l with
  | [] => [x]
  | y :: l' =>
      if before y x then y :: sorted_insert before x l' else x :: y :: l'
  end.

Definition sorted_by {A} (before : A → A → bool) (l : list A) : list A :=
  foldr (sorted_insert before) [] l.

(** [Model.query.all()]: the rows of a table.  The source gives no
    [order_by]; the rows come in the order of a table scan, by ascending
    primary key. *)
Definition query_all {T} (t : gmap Z T) : list (obj T) :=
  sorted_by (λ y x, bool_decide (y.1 < x.1)) (map_to_list t).

(** [Model.query.get(id)] on a key of the store; the keys of SQLite are
    64-bit integers. *)
Definition query_get {T} (t : gmap Z T) (id : Z) : option (obj T) :=
  (λ row, (id, row)) <$> t !! id.

(** A [db.relationship(..., secondary=assoc)] collection of [owner]: the
    target rows joined to the owner through the association table. *)
Definition secondary {T} (target : gmap Z T) (assoc : gset (Z * Z))
    (owner : Z) : list (obj T) :=
  filter (λ o, (owner, o.1) ∈ assoc) (query_all target).

Definition preferred_genres (db : DB) (uid : Z) : list (obj Genre) :=
  secondary (genre_table db) (user_genre_preferences db) uid.
Definition liked_movies (db : DB) (uid : Z) : list (obj Movie) :=
  secondary (movie_table db) (user_liked_movies db) uid.
Definition preferred_languages (db : DB) (uid : Z) : list (obj Language) :=
  secondary (language_table db) (user_language_preferences db) uid.
Definition watchlist (db : DB) (uid : Z) : list (obj Movie) :=
  secondary (movie_table db) (user_watchlist db) uid.
Definition genres (db : DB) (mid : Z) : list (obj Genre) :=
  secondary (genre_table db) (movie_genres db) mid.
Definition languages (db : DB) (mid : Z) : list (obj Language) :=
  secondary (language_table db) (movie_languages db) mid.

(** A set comprehension [{x.id for x in xs}]. *)
Definition id_set {T} (xs : list (obj T)) : gset Z := list_to_set (fst <$> xs).

(** [Movie.query.join(Movie.languages).filter(Language.id.in_(ids)).all()]:
    the movies that have a language whose id is in [ids], each movie once,
    here in table order. *)
Definition movies_in_languages (db : DB) (ids : gset Z) : list (obj Movie) :=
  filter (λ m, Exists (λ l, l.1 ∈ ids) (languages db m.1))
         (query_all (movie_table db)).

(** ** The recommendation scorer *)

(** A [dict] keyed by movie instances in insertion order; the session's
    identity map makes instance identity the primary key.  Assigning to a
    key already present keeps its position. *)
Fixpoint dict_set (d : list (obj Movie * Z)) (k : obj Movie) (v : Z)
    : list (obj Movie * Z) :=
  match d with
  | [] => [(k, v)]
  | kv :: d' =>
      if decide (kv.1.1 = k.1) then (kv.1, v) :: d'
      else kv :: dict_set d' k v
  end.

(** Lines 290-295: the score of one candidate. *)
Definition movie_score (user_pref_genre_ids seed_movie_genre_ids
    movie_genre_ids : gset Z) : Z :=
  let score := 0 in
  let direct_matches := user_pref_genre_ids ∩ movie_genre_ids in
  let score := score + Z.of_nat (size direct_matches) * 10 in
  let indirect_matches := seed_movie_genre_ids ∩ movie_genre_ids in
  let score := score + Z.of_nat (size indirect_matches) * 5 in
  score.

Definition user_pref_genre_ids (db : DB) (uid : Z) : gset Z :=
  id_set (preferred_genres db uid).
Definition user_pref_lang_ids (db : DB) (uid : Z) : gset Z :=
  id_set (preferred_languages db uid).
Definition seed_movie_genre_ids (db : DB) (uid : Z) : gset Z :=
  list_to_set (liked_movies db uid ≫= λ movie, fst <$> genres db movie.1).
Definition liked_movie_ids (db : DB) (uid : Z) : gset Z :=
  id_set (liked_movies db uid).
Definition candidate_movies (db : DB) (uid : Z) : list (obj Movie) :=
  movies_in_languages db (user_pref_lang_ids db uid).

(** The score the loop computes for [movie]. *)
Definition score_of (db : DB) (uid : Z) (mid : Z) : Z :=
  movie_score (user_pref_genre_ids db uid) (seed_movie_genre_ids db uid)
              (id_set (genres db mid)).

(** One iteration of the loop of lines 287-297. *)
Definition score_step (db : DB) (uid : Z) (d : list (obj Movie * Z))
    (movie : obj Movie) : list (obj Movie * Z) :=
  if decide (movie.1 ∈ liked_movie_ids db uid) then d
  else
    let score := score_of db uid movie.1 in
    if decide (score > 0) then dict_set d movie score else d.

Definition recommendations_scores (db : DB) (uid : Z)
    : list (obj Movie * Z) :=
  foldl (score_step db uid) [] (candidate_movies db uid).

Definition sorted_recommendations (db : DB) (uid : Z)
    : list (obj Movie * Z) :=
  sorted_by (λ y x, bool_decide (x.2 < y.2)) (recommendations_scores db uid).

(** ** Requests and responses *)

Inductive Method := GET | POST.

(** [request.form], a multi-dict: the submitted fields in order. *)
Definition Form := list (string * string).

(** [request.form.getlist(key)]. *)
Definition form_getlist (form : Form) (key : string) : list string :=
  snd <$> filter (λ kv, kv.1 = key) form.

(** [request.form.get(key)]: the first value, [None] when absent. *)
Definition form_get (form : Form) (key : string) : option string :=
  head (form_getlist form key).

Inductive Exception :=
| BadRequestKeyError (key : string)
| ValueError
| OverflowError
| BuildError.

(** [request.form[key]] raises [BadRequestKeyError] when the key is absent. *)
Definition form_index (form : Form) (key : string) : Exception + string :=
  match form_get form key with
  | Some v => inr v
  | None => inl (BadRequestKeyError key)
  end.

Inductive Endpoint :=
| url_dashboard
| url_login
| url_register
| url_survey
| url_recommendations
| url_movie_detail (movie_id : Z).

Inductive Page :=
| movie_detail_html (movie : obj Movie) (reviews : list (obj Review))
                    (user_review : option (obj Review))
| register_html
| survey_html
| recommendations_html (recommendations : list (obj Movie * Z))
| edit_review_html (review : obj Review).

(** How a view function ends: a redirect, a rendered template, [abort(code)]
    (also what [get_or_404] does), or an exception that leaves the view. *)
Inductive Outcome :=
| Redirect (target : Endpoint)
| Render (page : Page)
| Abort (code : Z)
| Raise (exc : Exception).

(** The effect of one request: the committed database, the messages passed
    to [flash] as (message, category), and the outcome. *)
Record Result := {
  res_db : DB;
  res_flash : list (string * string);
  res_out : Outcome
}.

(** The session cookie of a request, which the application signs, names a
    user id that [login_user] wrote, or nobody; [load_user] resolves it with
    [User.query.get]. *)
Definition Session := option Z.

Definition load_user (db : DB) (sess : Session) : option (obj User) :=
  sess ≫= query_get (user_table db).

(** [@login_required] on an anonymous request: Flask-Login flashes its
    login message and redirects to [login_manager.login_view]. *)
Definition unauthorized (db : DB) : Result :=
  {| res_db := db;
     res_flash := [("Please log in to access this page.", "message")];
     res_out := Redirect url_login |}.

(** ** Keys and integers of the store *)

(** The integers SQLite stores; the driver raises [OverflowError] on a
    Python [int] outside this range. *)
Definition fits_sqlite_integer (n : Z) : Prop :=
  - 2 ^ 63 <= n < 2 ^ 63.

(** What [Model.query.get_or_404(id)] ends in when no row has the key [id]:
    [abort(404)], or, for an id outside the range of SQLite's keys, which
    names no row, the driver's [OverflowError]. *)
Definition no_row (id : Z) : Outcome :=
  if decide (fits_sqlite_integer id) then Abort 404 else Raise OverflowError.

(** The key SQLite assigns to a row inserted without one: 1 in an empty
    table, else the largest key in use plus one. *)
Definition next_id {T} (t : gmap Z T) : Z :=
  match (map_to_list t).*1 with
  | [] => 1
  | k :: ks => foldr Z.max k ks + 1
  end.

(** ** Review routes *)

(** [movie.reviews]: the reviews whose [movie_id] is the movie's. *)
Definition movie_reviews (db : DB) (mid : Z) : list (obj Review) :=
  filter (λ r, review_movie_id r.2 = Some mid) (query_all (review_table db)).

(** SQLite's order on a nullable timestamp: NULL before every value. *)
Definition timestamp_lt (a b : option Z) : bool :=
  match a, b with
  | None, Some _ => true
  | Some x, Some y => bool_decide (x < y)
  | _, None => false
  end.

(** [q.order_by(Review.timestamp.desc()).all()]. *)
Definition order_by_timestamp_desc (q : list (obj Review))
    : list (obj Review) :=
  sorted_by (λ y x, timestamp_lt (review_timestamp x.2) (review_timestamp y.2))
            q.

(** [movie.reviews.filter_by(user_id=uid).first()]. *)
Definition user_review_of (db : DB) (mid uid : Z) : option (obj Review) :=
  head (filter (λ r, review_user_id r.2 = Some uid) (movie_reviews db mid)).

Definition with_reviews (db : DB) (t : gmap Z Review) : DB :=
  {| user_table := user_table db; movie_table := movie_table db;
     genre_table := genre_table db; language_table := language_table db;
     review_table := t;
     user_genre_preferences := user_genre_preferences db;
     user_liked_movies := user_liked_movies db;
     user_language_preferences := user_language_preferences db;
     movie_genres := movie_genres db; movie_languages := movie_languages db;
     user_watchlist := user_watchlist db |}.

Section ReviewRoutes.

(** Two functions under the review routes: Python's [int] on a [str], with
    [None] for [ValueError], and what SQLite keeps, and hands back, for a
    string bound to a column of INTEGER affinity: an integer or a real for
    a numeral, the string itself otherwise. *)
Variable py_int : string → option Z.
Variable integer_affinity : string → PyVal.

(** [movie_detail(movie_id)], at clock reading [now]. *)
Definition movie_detail (db : DB) (now : Z) (sess : Session)
    (method : Method) (form : Form) (movie_id : Z) : Result :=
  match load_user db sess with
  | None => unauthorized db
  | Some current_user =>
  match query_get (movie_table db) movie_id with
  | None => {| res_db := db; res_flash := []; res_out := no_row movie_id |}
  | Some movie =>
  let user_review := user_review_of db movie.1 current_user.1 in
  match method with
  | POST =>
      match user_review with
      | Some _ =>
          {| res_db := db;
             res_flash := [("You have already reviewed this movie. You can edit your existing review.", "error")];
             res_out := Redirect (url_movie_detail movie_id) |}
      | None =>
      let rating := form_get form "rating" in
      let text := form_get form "review_text" in
      match rating with
      | None | Some EmptyString =>
          {| res_db := db;
             res_flash := [("You must provide a rating.", "error")];
             res_out := Redirect (url_movie_detail movie_id) |}
      | Some rating =>
      match py_int rating with
      | None => {| res_db := db; res_flash := []; res_out := Raise ValueError |}
      | Some n =>
          if decide (fits_sqlite_integer n) then
            let new_review :=
              {| review_rating := PyInt n; review_text := text;
                 review_timestamp := Some now;
                 review_user_id := Some current_user.1;
                 review_movie_id := Some movie.1 |} in
            {| res_db :=
                 with_reviews db
                   (<[next_id (review_table db) := new_review]>
                      (review_table db));
               res_flash := [("Your review has been submitted!", "success")];
               res_out := Redirect (url_movie_detail movie_id) |}
          else
            {| res_db := db; res_flash := [];
               res_out := Raise OverflowError |}
      end
      end
      end
  | GET =>
      let reviews := order_by_timestamp_desc (movie_reviews db movie.1) in
      {| res_db := db; res_flash := [];
         res_out := Render (movie_detail_html movie reviews user_review) |}
  end
  end
  end.

(** [edit_review(review_id)].  [review.author] is the user row the review's
    [user_id] points to.  The rating of the form is bound to its column as
    the string it is, with no [int] before; what the row holds after the
    commit, and the next request reads, is [integer_affinity rating]. *)
Definition edit_review (db : DB) (sess : Session) (method : Method)
    (form : Form) (review_id : Z) : Result :=
  match load_user db sess with
  | None => unauthorized db
  | Some current_user =>
  match query_get (review_table db) review_id with
  | None => {| res_db := db; res_flash := []; res_out := no_row review_id |}
  | Some review =>
  let author := review_user_id review.2 ≫= query_get (user_table db) in
  if decide (fst <$> author = Some current_user.1) then
    match method with
    | POST =>
        match form_index form "rating" with
        | inl exc => {| res_db := db; res_flash := []; res_out := Raise exc |}
        | inr rating =>
        match form_index form "review_text" with
        | inl exc => {| res_db := db; res_flash := []; res_out := Raise exc |}
        | inr text =>
            let review' :=
              {| review_rating := integer_affinity rating;
                 review_text := Some text;
                 review_timestamp := review_timestamp review.2;
                 review_user_id := review_user_id review.2;
                 review_movie_id := review_movie_id review.2 |} in
            {| res_db :=
                 with_reviews db (<[review_id := review']> (review_table db));
               res_flash := [("Your review has been updated!", "success")];
               res_out :=
                 match review_movie_id review.2 with
                 | Some movie_id => Redirect (url_movie_detail movie_id)
                 | None => Raise BuildError
                 end |}
        end
        end
    | GET =>
        {| res_db := db; res_flash := [];
           res_out := Render (edit_review_html review) |}
    end
  else {| res_db := db; res_flash := []; res_out := Abort 403 |}
  end
  end.

End ReviewRoutes.

(** ** Watchlist *)

Definition with_watchlist (db : DB) (w : gset (Z * Z)) : DB :=
  {| user_table := user_table db; movie_table := movie_table db;
     genre_table := genre_table db; language_table := language_table db;
     review_table := review_table db;
     user_genre_preferences := user_genre_preferences db;
     user_liked_movies := user_liked_movies db;
     user_language_preferences := user_language_preferences db;
     movie_genres := movie_genres db; movie_languages := movie_languages db;
     user_watchlist := w |}.

Definition dquote : string := String "034" EmptyString.

(** [toggle_watchlist(movie_id)]; the route accepts POST only.  Removing
    from, or appending to, the relationship collection deletes, or inserts,
    the association row at [commit]. *)
Definition toggle_watchlist (db : DB) (sess : Session) (movie_id : Z)
    : Result :=
  match load_user db sess with
  | None => unauthorized db
  | Some current_user =>
  match query_get (movie_table db) movie_id with
  | None => {| res_db := db; res_flash := []; res_out := no_row movie_id |}
  | Some movie =>
      if decide (movie.1 ∈ (watchlist db current_user.1).*1) then
        {| res_db :=
             with_watchlist db
               (user_watchlist db ∖ {[ (current_user.1, movie.1) ]});
           res_flash :=
             [(dquote ++ title movie.2 ++ dquote
                 ++ " removed from your watchlist.", "success")];
           res_out := Redirect (url_movie_detail movie_id) |}
      else
        {| res_db :=
             with_watchlist db
               (user_watchlist db ∪ {[ (current_user.1, movie.1) ]});
           res_flash :=
             [(dquote ++ title movie.2 ++ dquote
                 ++ " added to your watchlist.", "success")];
           res_out := Redirect (url_movie_detail movie_id) |}
  end
  end.

(** ** Recommendations route *)

Definition recommendations (db : DB) (sess : Session) : Result :=
  match load_user db sess with
  | None => unauthorized db
  | Some current_user =>
      if negb (has_completed_survey current_user.2) then
        {| res_db := db;
           res_flash :=
             [("Please complete the survey to get recommendations.", "info")];
           res_out := Redirect url_survey |}
      else
        {| res_db := db; res_flash := [];
           res_out :=
             Render (recommendations_html
                       (sorted_recommendations db current_user.1)) |}
  end.

(** ** Registration, survey and the command line *)

Definition with_users (db : DB) (t : gmap Z User) : DB :=
  {| user_table := t; movie_table := movie_table db;
     genre_table := genre_table db; language_table := language_table db;
     review_table := review_table db;
     user_genre_preferences := user_genre_preferences db;
     user_liked_movies := user_liked_movies db;
     user_language_preferences := user_language_preferences db;
     movie_genres := movie_genres db; movie_languages := movie_languages db;
     user_watchlist := user_watchlist db |}.

(** [User.query.filter_by(username=username).first()]. *)
Definition user_by_name (db : DB) (name : string) : option (obj User) :=
  head (filter (λ u, username u.2 = name) (query_all (user_table db))).

(** Assigning a list to a [secondary] relationship of [owner]: at [commit]
    the rows of the collection loaded before go and those of the new
    collection are there. *)
Definition assign_collection {T : Type} (assoc : gset (Z * Z)) (owner : Z)
    (old new : list (obj T)) : gset (Z * Z) :=
  (assoc ∖ list_to_set ((λ o, (owner, o.1)) <$> old))
  ∪ list_to_set ((λ o, (owner, o.1)) <$> new).

Definition empty_db : DB :=
  {| user_table := ∅; movie_table := ∅; genre_table := ∅;
     language_table := ∅; review_table := ∅;
     user_genre_preferences := ∅; user_liked_movies := ∅;
     user_language_preferences := ∅; movie_genres := ∅;
     movie_languages := ∅; user_watchlist := ∅ |}.

Definition mk_movie (t o p : string) (r : Qc) : Movie :=
  {| title := t; overview := Some o; poster_path := p;
     movie_rating := Some r |}.

(** The six movies of [seed_mock_data_command]. *)
Definition m1 : Movie :=
  mk_movie "The Dark Knight" "The Joker wreaks havoc on Gotham."
    "the_dark_knight.jpg" (Q2Qc 9).
Definition m2 : Movie :=
  mk_movie "Inception"
    "A thief who steals corporate secrets through dream-sharing technology."
    "inception.jpg" (Q2Qc (88 # 10)).
Definition m3 : Movie :=
  mk_movie "3 Idiots"
    "Two friends are searching for their long lost companion."
    "3_idiots.jpg" (Q2Qc (84 # 10)).
Definition m4 : Movie :=
  mk_movie "Lagaan"
    "A small village in Victorian India stakes their future on a game of cricket."
    "lagaan.jpg" (Q2Qc (81 # 10)).
Definition m5 : Movie :=
  mk_movie "Chhello Divas"
    "The lives of eight friends and their journey of growing up."
    "chhello_divas.jpg" (Q2Qc (85 # 10)).
Definition m6 : Movie :=
  mk_movie "Hellaro"
    "A group of women from the Kutch region of Gujarat express themselves through garba."
    "hellaro.jpg" (Q2Qc (82 # 10)).

(** The database [seed_mock_data_command] leaves: every table emptied, then
    three languages, five genres and six movies inserted in this order, so
    keyed from 1. *)
Definition seed_db : DB :=
  {| user_table := ∅;
     movie_table :=
       list_to_map [(1, m1); (2, m2); (3, m3); (4, m4); (5, m5); (6, m6)];
     genre_table :=
       list_to_map
         [(1, {| genre_name := "Action" |}); (2, {| genre_name := "Comedy" |});
          (3, {| genre_name := "Sci-Fi" |}); (4, {| genre_name := "Drama" |});
          (5, {| genre_name := "Crime" |})];
     language_table :=
       list_to_map
         [(1, {| language_name := "English" |});
          (2, {| language_name := "Hindi" |});
          (3, {| language_name := "Gujarati" |})];
     review_table := ∅;
     user_genre_preferences := ∅; user_liked_movies := ∅;
     user_language_preferences := ∅;
     movie_genres :=
       list_to_set
         [(1, 1); (1, 4); (1, 5); (2, 1); (2, 3); (3, 4); (3, 2); (4, 4);
          (5, 2); (5, 4); (6, 4)];
     movie_languages :=
       list_to_set [(1, 1); (2, 1); (3, 2); (4, 2); (5, 3); (6, 3)];
     user_watchlist := ∅ |}.

Section Engine.

(** The two functions under the review routes, and two more of the
    libraries under the application: werkzeug's salted password hash, as a
    function of the password and of the salt it draws, and the storage
    engine's test whether an integer key equals a bound form string, which
    is what [Column.in_] does on the strings of [request.form.getlist]. *)
Variable py_int : string → option Z.
Variable integer_affinity : string → PyVal.
Variable generate_password_hash : string → string → string.
Variable sql_eq_text : Z → string → bool.

(** [Model.query.filter(Model.id.in_(ids)).all()] on form strings. *)
Definition query_id_in {T} (t : gmap Z T) (ids : list string)
    : list (obj T) :=
  filter (λ o, Exists (λ s, sql_eq_text o.1 s = true) ids) (query_all t).

(** [register()]; [salt] is the salt drawn by [set_password].  [login_user]
    writes the session cookie of the response only; the session of a request
    is an input here. *)
Definition register (db : DB) (sess : Session) (method : Method)
    (form : Form) (salt : string) : Result :=
  match load_user db sess with
  | Some _ =>
      {| res_db := db; res_flash := []; res_out := Redirect url_dashboard |}
  | None =>
  match method with
  | POST =>
      match form_index form "username" with
      | inl exc => {| res_db := db; res_flash := []; res_out := Raise exc |}
      | inr name =>
      match form_index form "password" with
      | inl exc => {| res_db := db; res_flash := []; res_out := Raise exc |}
      | inr password =>
      match user_by_name db name with
      | Some _ =>
          {| res_db := db;
             res_flash := [("Username already exists.", "error")];
             res_out := Redirect url_register |}
      | None =>
          let new_user :=
            {| username := name;
               password_hash := generate_password_hash password salt;
               has_completed_survey := false; is_admin := false;
               bio := None; avatar_path := "default.jpg" |} in
          {| res_db :=
               with_users db
                 (<[next_id (user_table db) := new_user]> (user_table db));
             res_flash :=
               [("Account created! Please complete the survey to get started.",
                 "success")];
             res_out := Redirect url_survey |}
      end
      end
      end
  | GET => {| res_db := db; res_flash := []; res_out := Render register_html |}
  end
  end.

(** [survey()]. *)
Definition survey (db : DB) (sess : Session) (method : Method) (form : Form)
    : Result :=
  match load_user db sess with
  | None => unauthorized db
  | Some current_user =>
  match method with
  | POST =>
      let uid := current_user.1 in
      let lang_ids := form_getlist form "languages" in
      let new_languages := query_id_in (language_table db) lang_ids in
      let genre_ids := form_getlist form "genres" in
      let new_genres := query_id_in (genre_table db) genre_ids in
      let movie_ids := form_getlist form "liked_movies" in
      let new_movies := query_id_in (movie_table db) movie_ids in
      let user' :=
        {| username := username current_user.2;
           password_hash := password_hash current_user.2;
           has_completed_survey := true;
           is_admin := is_admin current_user.2;
           bio := bio current_user.2;
           avatar_path := avatar_path current_user.2 |} in
      {| res_db :=
           {| user_table := <[uid := user']> (user_table db);
              movie_table := movie_table db;
              genre_table := genre_table db;
              language_table := language_table db;
              review_table := review_table db;
              user_genre_preferences :=
                assign_collection (user_genre_preferences db) uid
                  (preferred_genres db uid) new_genres;
              user_liked_movies :=
                assign_collection (user_liked_movies db) uid
                  (liked_movies db uid) new_movies;
              user_language_preferences :=
                assign_collection (user_language_preferences db) uid
                  (preferred_languages db uid) new_languages;
              movie_genres := movie_genres db;
              movie_languages := movie_languages db;
              user_watchlist := user_watchlist db |};
         res_flash := [("Your preferences have been saved!", "success")];
         res_out := Redirect url_recommendations |}
  | GET => {| res_db := db; res_flash := []; res_out := Render survey_html |}
  end
  end.

(** [create_admin_command], on the two lines read from the terminal. *)
Definition create_admin_command (db : DB) (name password salt : string)
    : DB :=
  match user_by_name db name with
  | Some user =>
      with_users db
        (<[user.1 :=
             {| username := username user.2;
                password_hash := password_hash user.2;
                has_completed_survey := has_completed_survey user.2;
                is_admin := true; bio := bio user.2;
                avatar_path := avatar_path user.2 |}]> (user_table db))
  | None =>
      with_users db
        (<[next_id (user_table db) :=
             {| username := name;
                password_hash := generate_password_hash password salt;
                has_completed_survey := true; is_admin := true;
                bio := None; avatar_path := "default.jpg" |}]>
           (user_table db))
  end.

(** The requests of the modelled routes. *)
Inductive Request :=
| req_movie_detail (method : Method) (form : Form) (movie_id : Z)
| req_register (method : Method) (form : Form) (salt : string)
| req_survey (method : Method) (form : Form)
| req_recommendations
| req_toggle_watchlist (movie_id : Z)
| req_edit_review (method : Method) (form : Form) (review_id : Z).

Definition handle (db : DB) (now : Z) (sess : Session) (req : Request)
    : Result :=
  match req with
  | req_movie_detail method form movie_id =>
      movie_detail py_int db now sess method form movie_id
  | req_register method form salt => register db sess method form salt
  | req_survey method form => survey db sess method form
  | req_recommendations => recommendations db sess
  | req_toggle_watchlist movie_id => toggle_watchlist db sess movie_id
  | req_edit_review method form review_id =>
      edit_review integer_affinity db sess method form review_id
  end.

End Engine.

(** ** Further routes *)

(** Where the further routes redirect to. *)
Inductive Location :=
| to_endpoint (e : Endpoint)
| url_index
| url_profile (name : string).

Inductive Template :=
| index_html
| dashboard_html (languages : list (obj Language))
| genres_by_language_html (genres : list (obj Genre))
                          (language : obj Language)
| genre_movies_html (movies : list (obj Movie)) (genre : obj Genre)
                    (language : obj Language)
| login_html
| watchlist_html (watchlist_movies : list (obj Movie))
| profile_html (user : obj User) (reviews : list (obj Review))
| edit_profile_html.

Inductive Response :=
| redirect (target : Location)
| render_template (t : Template)
| abort (code : Z)
| raise (exc : Exception).

(** The effect of a request on one of the further routes: the committed
    database, the user id the session holds afterwards, the files written
    as (path, content), the flashed messages and the response. *)
Record Reply := {
  rep_db : DB;
  rep_session : Session;
  rep_saved : list (string * string);
  rep_flash : list (string * string);
  rep_out : Response
}.

(** A reply that writes nothing. *)
Definition reply (db : DB) (sess : Session) (flash : list (string * string))
    (out : Response) : Reply :=
  {| rep_db := db; rep_session := sess; rep_saved := []; rep_flash := flash;
     rep_out := out |}.

(** [@login_required] on an anonymous request, for the further routes. *)
Definition login_redirect (db : DB) (sess : Session) : Reply :=
  reply db sess [("Please log in to access this page.", "message")]
        (redirect (to_endpoint url_login)).

(** [q.order_by(Model.name).all()]: by the bytes of the name. *)
Definition order_by_name {T} (name : T → string) (q : list (obj T))
    : list (obj T) :=
  sorted_by (λ y x, String.ltb (name y.2) (name x.2)) q.

(** [Language.query.filter_by(name=language_name).first()]. *)
Definition language_by_name (db : DB) (name : string)
    : option (obj Language) :=
  head (filter (λ l, language_name l.2 = name) (query_all (language_table db))).

(** [index()]. *)
Definition index (db : DB) (sess : Session) : Reply :=
  match load_user db sess with
  | Some _ => reply db sess [] (redirect (to_endpoint url_dashboard))
  | None => reply db sess [] (render_template index_html)
  end.

(** [dashboard()]. *)
Definition dashboard (db : DB) (sess : Session) : Reply :=
  match load_user db sess with
  | None => login_redirect db sess
  | Some _ =>
      let languages :=
        order_by_name language_name (query_all (language_table db)) in
      reply db sess [] (render_template (dashboard_html languages))
  end.

(** The query of [genres_by_language]: the genres joined through
    [Movie.genres] to a movie that [Movie.languages] joins to the language
    [lid], each genre once, by name. *)
Definition genres_in_language (db : DB) (lid : Z) : list (obj Genre) :=
  order_by_name genre_name
    (filter (λ g, Exists (λ m, g.1 ∈ (genres db m.1).*1
                               ∧ lid ∈ (languages db m.1).*1)
                         (query_all (movie_table db)))
            (query_all (genre_table db))).

(** [genres_by_language(language_name)]. *)
Definition genres_by_language (db : DB) (sess : Session)
    (language_name : string) : Reply :=
  match load_user db sess with
  | None => login_redirect db sess
  | Some _ =>
  match language_by_name db language_name with
  | None => reply db sess [] (abort 404)
  | Some language =>
      let genres := genres_in_language db language.1 in
      reply db sess []
        (render_template (genres_by_language_html genres language))
  end
  end.

(** The query of [movies_by_genre_and_lang]. *)
Definition movies_in_genre_and_language (db : DB) (gid lid : Z)
    : list (obj Movie) :=
  filter (λ m, gid ∈ (genres db m.1).*1 ∧ lid ∈ (languages db m.1).*1)
         (query_all (movie_table db)).

(** [movies_by_genre_and_lang(language_name, genre_id)]. *)
Definition movies_by_genre_and_lang (db : DB) (sess : Session)
    (language_name : string) (genre_id : Z) : Reply :=
  match load_user db sess with
  | None => login_redirect db sess
  | Some _ =>
  match language_by_name db language_name with
  | None => reply db sess [] (abort 404)
  | Some language =>
  match query_get (genre_table db) genre_id with
  | None =>
      reply db sess []
        (if decide (fits_sqlite_integer genre_id) then abort 404
         else raise OverflowError)
  | Some genre =>
      let movies := movies_in_genre_and_language db genre.1 language.1 in
      reply db sess []
        (render_template (genre_movies_html movies genre language))
  end
  end
  end.

(** [logout()]: [logout_user] empties the session. *)
Definition logout (db : DB) (sess : Session) : Reply :=
  match load_user db sess with
  | None => login_redirect db sess
  | Some _ => reply db None [] (redirect url_index)
  end.

(** The view [watchlist()]. *)
Definition watchlist_page (db : DB) (sess : Session) : Reply :=
  match load_user db sess with
  | None => login_redirect db sess
  | Some current_user =>
      let watchlist_movies := watchlist db current_user.1 in
      reply db sess [] (render_template (watchlist_html watchlist_movies))
  end.

(** [user.reviews]: the reviews whose [user_id] is the user's. *)
Definition user_reviews (db : DB) (uid : Z) : list (obj Review) :=
  filter (λ r, review_user_id r.2 = Some uid) (query_all (review_table db)).

(** [profile(username)]. *)
Definition profile (db : DB) (sess : Session) (name : string) : Reply :=
  match load_user db sess with
  | None => login_redirect db sess
  | Some _ =>
  match user_by_name db name with
  | None => reply db sess [] (abort 404)
  | Some user =>
      let reviews := order_by_timestamp_desc (user_reviews db user.1) in
      reply db sess [] (render_template (profile_html user reviews))
  end
  end.

(** [SecureAdminView.is_accessible]. *)
Definition is_accessible (db : DB) (sess : Session) : bool :=
  match load_user db sess with
  | Some current_user => is_admin current_user.2
  | None => false
  end.

(** The create form of the administrator panel's review view,
    [SecureAdminView(Review, db.session)]: for a session that passes
    [is_accessible], Flask-Admin's [ModelView] inserts the review the form
    describes, here with an integer rating, a text, a timestamp, and an
    author and a movie chosen among the rows of their tables; it makes no
    further check.  Another session is sent to the login page. *)
Definition admin_create_review (db : DB) (sess : Session) (rating : Z)
    (text : option string) (timestamp author movie : Z) : DB :=
  if is_accessible db sess then
    if decide (fits_sqlite_integer rating
               ∧ is_Some (user_table db !! author)
               ∧ is_Some (movie_table db !! movie)) then
      with_reviews db
        (<[next_id (review_table db) :=
             {| review_rating := PyInt rating; review_text := text;
                review_timestamp := Some timestamp;
                review_user_id := Some author;
                review_movie_id := Some movie |}]> (review_table db))
    else db
  else db.

(** An uploaded file of [request.files]. *)
Record FileStorage := { filename : string; content : string }.

Definition Files := list (string * FileStorage).

(** [os.path.join] of two POSIX paths. *)
Definition os_path_join (a b : string) : string :=
  match b with
  | String "/" _ => b
  | _ =>
      match a with
      | EmptyString => b
      | _ => if String.eqb (substring (String.length a - 1) 1 a) "/"
             then a ++ b else a ++ "/" ++ b
      end
  end.

Section Site.

(** Further library functions: werkzeug's [check_password_hash] and
    [secure_filename], the extension [os.path.splitext(name)[1]], and the
    directory of [app.py]. *)
Variable check_password_hash : string → string → bool.
Variable secure_filename : string → string.
Variable splitext_ext : string → string.
Variable BASE_DIR : string.

Definition AVATAR_UPLOAD_FOLDER : string :=
  os_path_join BASE_DIR "static/uploads/avatars/".

(** [login()]; [login_user] puts the user's id into the session. *)
Definition login (db : DB) (sess : Session) (method : Method) (form : Form)
    : Reply :=
  match load_user db sess with
  | Some _ => reply db sess [] (redirect (to_endpoint url_dashboard))
  | None =>
  match method with
  | POST =>
      match form_index form "username" with
      | inl exc => reply db sess [] (raise exc)
      | inr name =>
      match form_index form "password" with
      | inl exc => reply db sess [] (raise exc)
      | inr password =>
      match user_by_name db name with
      | Some user =>
          if check_password_hash (password_hash user.2) password then
            if negb (has_completed_survey user.2) then
              reply db (Some user.1)
                [("Welcome! Please complete the survey to get recommendations.",
                  "info")]
                (redirect (to_endpoint url_survey))
            else
              reply db (Some user.1) []
                (redirect (to_endpoint url_dashboard))
          else
            reply db sess [("Invalid username or password.", "error")]
              (render_template login_html)
      | None =>
          reply db sess [("Invalid username or password.", "error")]
            (render_template login_html)
      end
      end
      end
  | GET => reply db sess [] (render_template login_html)
  end
  end.

(** [edit_profile()]; [uuid_hex] is the [hex] of the [uuid4] drawn for an
    uploaded avatar. *)
Definition edit_profile (db : DB) (sess : Session) (method : Method)
    (form : Form) (files : Files) (uuid_hex : string) : Reply :=
  match load_user db sess with
  | None => login_redirect db sess
  | Some current_user =>
  match method with
  | POST =>
      let new_bio := form_get form "bio" in
      let upload :=
        match head (snd <$> filter (λ kv, kv.1 = "avatar") files) with
        | Some file =>
            if decide (filename file ≠ EmptyString) then
              let ext := splitext_ext (filename file) in
              let unique_filename :=
                secure_filename
                  (username current_user.2 ++ "_" ++ substring 0 8 uuid_hex
                     ++ ext) in
              let file_path :=
                os_path_join AVATAR_UPLOAD_FOLDER unique_filename in
              Some (unique_filename, (file_path, content file))
            else None
        | None => None
        end in
      let user' :=
        {| username := username current_user.2;
           password_hash := password_hash current_user.2;
           has_completed_survey := has_completed_survey current_user.2;
           is_admin := is_admin current_user.2;
           bio := new_bio;
           avatar_path :=
             match upload with
             | Some (unique_filename, _) => unique_filename
             | None => avatar_path current_user.2
             end |} in
      {| rep_db :=
           with_users db (<[current_user.1 := user']> (user_table db));
         rep_session := sess;
         rep_saved :=
           match upload with Some (_, saved) => [saved] | None => [] end;
         rep_flash := [("Your profile has been updated!", "success")];
         rep_out := redirect (url_profile (username current_user.2)) |}
  | GET => reply db sess [] (render_template edit_profile_html)
  end
  end.

Variable py_int : string → option Z.
Variable integer_affinity : string → PyVal.
Variable generate_password_hash : string → string → string.
Variable sql_eq_text : Z → string → bool.

(** One request that may write: on a route of [handle] or a profile edit. *)
Inductive web_step (db : DB) : DB → Prop :=
| web_request now sess req :
    web_step db
      (res_db (handle py_int integer_affinity generate_password_hash
                 sql_eq_text db now sess req))
| web_edit_profile sess method form files uuid_hex :
    web_step db (rep_db (edit_profile db sess method form files uuid_hex)).

(** One maintenance command. *)
Inductive cli_step (db : DB) : DB → Prop :=
| cli_seed : cli_step db seed_db
| cli_create_admin name password salt :
    cli_step db
      (create_admin_command generate_password_hash db name password salt).

(** The databases reached from the empty schema by requests and commands,
    one after the other. *)
Inductive reachable_app : DB → Prop :=
| app_init : reachable_app empty_db
| app_web db db' : reachable_app db → web_step db db' → reachable_app db'
| app_cli db db' : reachable_app db → cli_step db db' → reachable_app db'.

(** One submission of the administrator panel's create form for reviews. *)
Inductive panel_step (db : DB) : DB → Prop :=
| panel_create_review sess rating text timestamp author movie :
    panel_step db
      (admin_create_review db sess rating text timestamp author movie).

(** The databases reached when administrators also use that form. *)
Inductive reachable_site : DB → Prop :=
| site_init : reachable_site empty_db
| site_web db db' : reachable_site db → web_step db db' → reachable_site db'
| site_cli db db' : reachable_site db → cli_step db db' → reachable_site db'
| site_panel db db' :
    reachable_site db → panel_step db db' → reachable_site db'.

End Site.

(** ** Invariants *)

(** No two users share a name. *)
Definition unique_usernames (db : DB) : Prop :=
  ∀ id1 id2 u1 u2,
    user_table db !! id1 = Some u1 → user_table db !! id2 = Some u2 →
    username u1 = username u2 → id1 = id2.

(** Every row of an association table joins two existing rows. *)
Definition joins {A B : Type} (assoc : gset (Z * Z)) (left : gmap Z A)
    (right : gmap Z B) : Prop :=
  ∀ a b, (a, b) ∈ assoc → is_Some (left !! a) ∧ is_Some (right !! b).

(** Every foreign key names an existing row. *)
Definition references_resolve (db : DB) : Prop :=
  (∀ id r, review_table db !! id = Some r →
     (∃ u, review_user_id r = Some u ∧ is_Some (user_table db !! u))
     ∧ (∃ m, review_movie_id r = Some m ∧ is_Some (movie_table db !! m)))
  ∧ joins (user_genre_preferences db) (user_table db) (genre_table db)
  ∧ joins (user_liked_movies db) (user_table db) (movie_table db)
  ∧ joins (user_language_preferences db) (user_table db) (language_table db)
  ∧ joins (movie_genres db) (movie_table db) (genre_table db)
  ∧ joins (movie_languages db) (movie_table db) (language_table db)
  ∧ joins (user_watchlist db) (user_table db) (movie_table db).

(** Two databases with the same catalogue and the same stored preferences
    of every user. *)
Definition same_ranking_inputs (db db' : DB) : Prop :=
  movie_table db' = movie_table db ∧ genre_table db' = genre_table db
  ∧ language_table db' = language_table db
  ∧ user_genre_preferences db' = user_genre_preferences db
  ∧ user_liked_movies db' = user_liked_movies db
  ∧ user_language_preferences db' = user_language_preferences db
  ∧ movie_genres db' = movie_genres db
  ∧ movie_languages db' = movie_languages db.

(** The rows of [assoc'] that [assoc] lacks join two existing rows. *)
Definition adds_joined {A B : Type} (assoc assoc' : gset (Z * Z))
    (left : gmap Z A) (right : gmap Z B) : Prop :=
  ∀ a b, (a, b) ∈ assoc' →
    (a, b) ∈ assoc ∨ (is_Some (left !! a) ∧ is_Some (right !! b)).

(** What a request may do to the database [db], giving [db']: it leaves
    the catalogue alone; it keeps every user, with name, password hash and
    administrator flag; it adds at most one user, no administrator and
    under a name not in use; a review it adds or changes belongs to an
    existing user and movie; an association row it adds joins existing
    rows. *)
Definition sound_update (db db' : DB) : Prop :=
  (movie_table db' = movie_table db ∧ genre_table db' = genre_table db
   ∧ language_table db' = language_table db
   ∧ movie_genres db' = movie_genres db
   ∧ movie_languages db' = movie_languages db)
  ∧ (∀ id u, user_table db !! id = Some u →
       ∃ u', user_table db' !! id = Some u' ∧ username u' = username u
             ∧ password_hash u' = password_hash u
             ∧ is_admin u' = is_admin u)
  ∧ (∀ id u', user_table db' !! id = Some u' → user_table db !! id = None →
       is_admin u' = false
       ∧ (∀ id0 u0, user_table db !! id0 = Some u0 →
            username u0 ≠ username u')
       ∧ (∀ id2, is_Some (user_table db' !! id2) →
            user_table db !! id2 = None → id2 = id))
  ∧ (∀ id r', review_table db' !! id = Some r' →
       (∃ r, review_table db !! id = Some r
             ∧ review_user_id r = review_user_id r'
             ∧ review_movie_id r = review_movie_id r')
       ∨ (∃ u m, review_user_id r' = Some u ∧ review_movie_id r' = Some m
                 ∧ is_Some (user_table db !! u)
                 ∧ is_Some (movie_table db !! m)))
  ∧ adds_joined (user_genre_preferences db) (user_genre_preferences db')
      (user_table db) (genre_table db)
  ∧ adds_joined (user_liked_movies db) (user_liked_movies db')
      (user_table db) (movie_table db)
  ∧ adds_joined (user_language_preferences db)
      (user_language_preferences db') (user_table db) (language_table db)
  ∧ adds_joined (user_watchlist db) (user_watchlist db')
      (user_table db) (movie_table db).

(** ** What a response shows *)

(** The ranked pairs on the page the recommendations route renders; none
    when the route answers otherwise. *)
Definition recommended (db : DB) (sess : Session) : list (obj Movie * Z) :=
  match res_out (recommendations db sess) with
  | Render (recommendations_html recs) => recs
  | _ => []
  end.

(** The review list on the page the movie-detail route renders. *)
Definition shown_reviews (r : Result) : list (obj Review) :=
  match res_out r with
  | Render (movie_detail_html _ reviews _) => reviews
  | _ => []
  end.

(** The answer to a review submitted for a movie already reviewed. *)
Definition already_reviewed (db : DB) (movie_id : Z) : Result :=
  {| res_db := db;
     res_flash := [("You have already reviewed this movie. You can edit your existing review.", "error")];
     res_out := Redirect (url_movie_detail movie_id) |}.

(** An entity of [table] whose key is among the values of a form field. *)
Definition selected {T} (sql_eq_text : Z → string → bool) (form : Form)
    (field : string) (table : gmap Z T) (o : obj T) : Prop :=
  table !! o.1 = Some o.2
  ∧ ∃ s, s ∈ form_getlist form field ∧ sql_eq_text o.1 s = true.

(** At most one review for each (user, movie) pair. *)
Definition one_review_per_pair (db : DB) : Prop :=
  ∀ id1 id2 r1 r2 u m,
    review_table db !! id1 = Some r1 → review_table db !! id2 = Some r2 →
    review_user_id r1 = Some u → review_movie_id r1 = Some m →
    review_user_id r2 = Some u → review_movie_id r2 = Some m →
    id1 = id2.

(** ** Sample data *)

(** Stand-ins for the library functions, to run the routes on the requests
    of the samples; the properties below are stated for the functions
    themselves, as parameters.  First [int] on ASCII strings: a decimal
    numeral of at most 4300 digits with an optional sign, single
    underscores between digits and blanks (bytes 9 to 13 and 32) around;
    a string with another byte in it has no value here. *)
Definition is_ascii_space (c : ascii) : bool :=
  let n := nat_of_ascii c in
  ((9 <=? n) && (n <=? 13) || (n =? 32))%nat.

Definition digit_of (c : ascii) : option Z :=
  let n := nat_of_ascii c in
  if ((48 <=? n) && (n <=? 57))%nat then Some (Z.of_nat n - 48) else None.

Fixpoint lstrip (l : list ascii) : list ascii :=
  match l with
  | c :: l' => if is_ascii_space c then lstrip l' else l
  | [] => []
  end.

Definition strip (l : list ascii) : list ascii :=
  rev (lstrip (rev (lstrip l))).

Fixpoint digits_value (acc : Z) (after_digit : bool) (l : list ascii)
    : option Z :=
  match l with
  | [] => if after_digit then Some acc else None
  | c :: l' =>
      match digit_of c with
      | Some d => digits_value (10 * acc + d) true l'
      | None =>
          if decide (c = "_"%char) then
            if after_digit then digits_value acc false l' else None
          else None
      end
  end.

Definition sample_int (s : string) : option Z :=
  let l := strip (list_ascii_of_string s) in
  if decide (length (filter (λ c, is_Some (digit_of c)) l) ≤ 4300)%nat then
    match l with
    | "+"%char :: l => digits_value 0 false l
    | "-"%char :: l => Z.opp <$> digits_value 0 false l
    | l => digits_value 0 false l
    end
  else None.

(** The column affinity: a string of one to eighteen decimal digits is kept
    as that integer; the other strings of the samples have no digit and are
    kept as text. *)
Fixpoint decimal_value (acc : Z) (l : list ascii) : option Z :=
  match l with
  | [] => Some acc
  | c :: l' =>
      match digit_of c with
      | Some d => decimal_value (10 * acc + d) l'
      | None => None
      end
  end.

Definition sample_affinity (s : string) : PyVal :=
  match list_ascii_of_string s with
  | [] => PyStr s
  | l => match decimal_value 0 l with
         | Some n => if decide (length l ≤ 18)%nat then PyInt n else PyStr s
         | None => PyStr s
         end
  end.

(** A hash and a key comparison. *)
Definition sample_hash (password salt : string) : string :=
  salt ++ "$" ++ password.
Definition decimal_eq_text (id : Z) (s : string) : bool :=
  bool_decide (sample_int s = Some id).

(** The seeded catalogue after user 1 registers ... *)
Definition sample_registered : DB :=
  res_db (register sample_hash seed_db None POST
            [("username", "alice"); ("password", "secret")] "salt").

(** ... answers the survey: English, Action, and liking "3 Idiots" ... *)
Definition sample_surveyed : DB :=
  res_db (survey decimal_eq_text sample_registered (Some 1) POST
            [("languages", "1"); ("genres", "1"); ("liked_movies", "3")]).

(** ... and reviews "Inception". *)
Definition sample_reviewed : DB :=
  res_db (movie_detail sample_int sample_surveyed 1700000000 (Some 1) POST
            [("rating", "5"); ("review_text", "Mind-bending.")] 2).

(** The same user after a survey that names no language. *)
Definition sample_no_language : DB :=
  res_db (survey decimal_eq_text sample_registered (Some 1) POST
            [("genres", "1")]).

(** User 1 as registered, and after a survey. *)
Definition sample_alice_new : obj User :=
  (1, {| username := "alice"; password_hash := "salt$secret";
         has_completed_survey := false; is_admin := false; bio := None;
         avatar_path := "default.jpg" |}).
Definition sample_alice : obj User :=
  (1, {| username := "alice"; password_hash := "salt$secret";
         has_completed_survey := true; is_admin := false; bio := None;
         avatar_path := "default.jpg" |}).

(** The review [sample_reviewed] holds under key 1. *)
Definition sample_review : Review :=
  {| review_rating := PyInt 5; review_text := Some "Mind-bending.";
     review_timestamp := Some 1700000000; review_user_id := Some 1;
     review_movie_id := Some 2 |}.

(** Further sample data: a password check that fits [sample_hash] with the
    salt of the samples, file-name functions, and the application folder. *)
Definition sample_check (hash password : string) : bool :=
  String.eqb hash ("salt$" ++ password).
Definition sample_secure_filename (name : string) : string := name.
Definition sample_splitext (name : string) : string := ".png".
Definition sample_base_dir : string := "/srv/app".

(** User 1 after a survey that names a language only. *)
Definition sample_only_language : DB :=
  res_db (survey decimal_eq_text sample_registered (Some 1) POST
            [("languages", "1")]).

(** [sample_reviewed] after a second user registers. *)
Definition sample_two_users : DB :=
  res_db (register sample_hash sample_reviewed None POST
            [("username", "bob"); ("password", "hunter2")] "salt").

Definition sample_bob : obj User :=
  (2, {| username := "bob"; password_hash := "salt$hunter2";
         has_completed_survey := false; is_admin := false; bio := None;
         avatar_path := "default.jpg" |}).

Definition sample_form : Form :=
  [("username", "alice"); ("password", "secret")].

(** The seeded catalogue after [create-admin] makes user 1 an
    administrator, who reviews "Inception" on the movie page and then
    enters a second review of it in the administrator panel. *)
Definition sample_admin : DB :=
  create_admin_command sample_hash seed_db "root" "toor" "salt".

Definition sample_admin_reviewed : DB :=
  res_db (movie_detail sample_int sample_admin 1700000000 (Some 1) POST
            [("rating", "5"); ("review_text", "Mind-bending.")] 2).

Definition sample_admin_twice : DB :=
  admin_create_review sample_admin_reviewed (Some 1) 1 (Some "Overrated.")
    1700000100 1 2.

(** * Properties *)

Arguments user_review_of : simpl never.
Arguments movie_reviews : simpl never.
Arguments order_by_timestamp_desc : simpl never.

(** ** Sorting *)

Lemma sorted_insert_perm {A} (before : A → A → bool) (x : A) (l : list A) :
  sorted_insert before x l ≡ₚ x :: l.
Proof.
  induction l as [|y l IH]; simpl; [done|].
  destruct (before y x); [|done].
  rewrite IH. apply Permutation_swap.
Qed.

Lemma sorted_by_perm {A} (before : A → A → bool) (l : list A) :
  sorted_by before l ≡ₚ l.
Proof.
  induction l as [|x l IH]; simpl; [done|].
  unfold sorted_by in *. simpl. by rewrite sorted_insert_perm, IH.
Qed.

Lemma elem_of_sorted_by {A} (before : A → A → bool) (l : list A) (x : A) :
  x ∈ sorted_by before l ↔ x ∈ l.
Proof. by rewrite sorted_by_perm. Qed.

Section SortedByKey.
Context {A : Type} (key : A → Z).

Let before (y x : A) : bool := bool_decide (key x < key y).
Let ge (a b : A) : Prop := key b <= key a.

Lemma sorted_insert_desc (x : A) (l : list A) :
  StronglySorted ge l → StronglySorted ge (sorted_insert before x l).
Proof.
  induction 1 as [|y l Hl IH Hy]; simpl.
  - repeat constructor.
  - unfold before at 1. case_bool_decide as Hlt.
    + constructor; [done|].
      rewrite sorted_insert_perm. constructor; [unfold ge; lia | done].
    + constructor; [by constructor|].
      constructor; [unfold ge; lia|].
      eapply Forall_impl; [exact Hy|]. unfold ge. intros; lia.
Qed.

Lemma sorted_by_desc (l : list A) :
  StronglySorted ge (sorted_by before l).
Proof.
  induction l as [|x l IH]; [constructor|].
  apply sorted_insert_desc, IH.
Qed.
End SortedByKey.

(** ** Tables and relationships *)

Lemma elem_of_query_all {T} (t : gmap Z T) (k : Z) (v : T) :
  (k, v) ∈ query_all t ↔ t !! k = Some v.
Proof.
  unfold query_all. rewrite elem_of_sorted_by. apply elem_of_map_to_list.
Qed.

Lemma query_all_functional {T} (t : gmap Z T) (x y : obj T) :
  x ∈ query_all t → y ∈ query_all t → x.1 = y.1 → x = y.
Proof.
  destruct x as [k v], y as [k' v']. rewrite !elem_of_query_all.
  simpl. intros ? ? ->. congruence.
Qed.

Lemma elem_of_secondary {T} (target : gmap Z T) assoc owner (o : obj T) :
  o ∈ secondary target assoc owner
  ↔ target !! o.1 = Some o.2 ∧ (owner, o.1) ∈ assoc.
Proof.
  unfold secondary. rewrite list_elem_of_filter.
  destruct o as [k v]. rewrite elem_of_query_all. naive_solver.
Qed.

Lemma elem_of_id_set {T} (xs : list (obj T)) (k : Z) :
  k ∈ id_set xs ↔ ∃ v, (k, v) ∈ xs.
Proof.
  unfold id_set. rewrite elem_of_list_to_set, list_elem_of_fmap.
  split.
  - intros [[k' v] [-> ?]]. by exists v.
  - intros [v ?]. by exists (k, v).
Qed.

Lemma query_get_Some {T} (t : gmap Z T) (id : Z) (o : obj T) :
  query_get t id = Some o ↔ o.1 = id ∧ t !! id = Some o.2.
Proof.
  unfold query_get. destruct o as [k v], (t !! id) as [w|]; simpl;
    naive_solver.
Qed.

(** ** The scoring loop *)

Lemma elem_of_dict_set d k v (kv : obj Movie * Z) :
  kv ∈ dict_set d k v →
  kv ∈ d ∨ kv = (k, v) ∨ (kv.2 = v ∧ kv.1.1 = k.1 ∧ ∃ v', (kv.1, v') ∈ d).
Proof.
  induction d as [|[k0 v0] d IH]; simpl.
  - rewrite list_elem_of_singleton. auto.
  - case_decide as Hk; rewrite !elem_of_cons.
    + intros [->|?]; [|auto]. right; right. simpl.
      split_and!; [done..|]. exists v0. left.
    + intros [->|Hin]; [auto|].
      destruct (IH Hin) as [?|[?|(? & ? & v' & ?)]]; [auto..|].
      right; right. split_and!; [done..|]. exists v'. by right.
Qed.

Lemma dict_set_keeps d k v (m : obj Movie) s :
  (m, s) ∈ d → ∃ s', (m, s') ∈ dict_set d k v.
Proof.
  induction d as [|[k0 v0] d IH]; simpl; [by intros ?%elem_of_nil|].
  rewrite elem_of_cons. intros [[= <- <-]|Hin]; case_decide.
  - exists v. left.
  - exists s. left.
  - exists s. by right.
  - destruct (IH Hin) as [s' ?]. exists s'. by right.
Qed.

Lemma dict_set_has d k v : ∃ m, m.1 = k.1 ∧ (m, v) ∈ dict_set d k v.
Proof.
  induction d as [|[k0 v0] d IH]; simpl.
  - exists k. split; [done|left].
  - case_decide.
    + exists k0. split; [done|left].
    + destruct IH as (m & ? & ?). exists m. split; [done|by right].
Qed.

Section Scoring.
Context (db : DB) (uid : Z).

(** What an entry of the dictionary is, after the loop ran over [l]. *)
Lemma scores_sound (l : list (obj Movie)) (m : obj Movie) (s : Z) :
  (m, s) ∈ foldl (score_step db uid) [] l →
  m ∈ l ∧ (m.1 ∉ liked_movie_ids db uid) ∧ s = score_of db uid m.1 ∧ s > 0.
Proof.
  revert m s. induction l as [|x l IH] using rev_ind; intros m s.
  { by intros ?%elem_of_nil. }
  rewrite foldl_app. simpl. unfold score_step at 1.
  assert (Hold : (∃ s', (m, s') ∈ foldl (score_step db uid) [] l) →
                 m ∈ (l ++ [x])%list ∧ (m.1 ∉ liked_movie_ids db uid)).
  { intros [s' (? & ? & _)%IH]. split; [|done].
    apply elem_of_app. by left. }
  assert (Hsame : (m, s) ∈ foldl (score_step db uid) [] l →
    m ∈ (l ++ [x])%list ∧ (m.1 ∉ liked_movie_ids db uid)
    ∧ s = score_of db uid m.1 ∧ s > 0).
  { intros Hin. destruct (IH _ _ Hin) as (? & ? & ? & ?).
    split_and!; try done. apply elem_of_app. by left. }
  case_decide as Hliked; [done|].
  case_decide as Hpos; [|done].
  intros [?|[[= -> ->]|(Hs & Hk & Hex)]]%elem_of_dict_set; [auto| |].
  - split_and!; try done. apply elem_of_app. right. left.
  - simpl in *. destruct (Hold Hex) as [? ?].
    split_and!; [done|done|by rewrite Hk|lia].
Qed.

(** Every movie the loop scored above zero has an entry. *)
Lemma scores_complete (l : list (obj Movie)) (m : obj Movie) :
  m ∈ l → m.1 ∉ liked_movie_ids db uid → score_of db uid m.1 > 0 →
  ∃ m' s, m'.1 = m.1 ∧ (m', s) ∈ foldl (score_step db uid) [] l.
Proof.
  induction l as [|x l IH] using rev_ind.
  { by intros ?%elem_of_nil. }
  rewrite foldl_app. simpl. unfold score_step at 1.
  intros [Hin|Hx%list_elem_of_singleton]%elem_of_app Hliked Hpos;
    [|subst m].
  - destruct (IH Hin Hliked Hpos) as (m' & s & Hid & Hm').
    exists m'.
    repeat case_decide; try (by exists s).
    destruct (dict_set_keeps _ x (score_of db uid x.1) _ _ Hm') as [s' ?].
    by exists s'.
  - rewrite decide_False by done. rewrite decide_True by done.
    destruct (dict_set_has (foldl (score_step db uid) [] l) x
                (score_of db uid x.1)) as (m' & ? & ?).
    by exists m', (score_of db uid x.1).
Qed.

Lemma candidate_in_table (m : obj Movie) :
  m ∈ candidate_movies db uid → m ∈ query_all (movie_table db).
Proof.
  unfold candidate_movies, movies_in_languages.
  by intros [_ ?]%list_elem_of_filter.
Qed.

(** The entries of the ranked list, exactly. *)
Lemma elem_of_sorted_recommendations (m : obj Movie) (s : Z) :
  (m, s) ∈ sorted_recommendations db uid
  ↔ m ∈ candidate_movies db uid ∧ (m.1 ∉ liked_movie_ids db uid)
    ∧ s = score_of db uid m.1 ∧ s > 0.
Proof.
  unfold sorted_recommendations, recommendations_scores.
  rewrite elem_of_sorted_by. split; [apply scores_sound|].
  intros (Hc & Hl & -> & Hpos).
  destruct (scores_complete _ _ Hc Hl Hpos) as (m' & s & Hid & Hin).
  destruct (scores_sound _ _ _ Hin) as (Hc' & _ & -> & _).
  assert (m' = m) as ->; [|done].
  eapply query_all_functional; eauto using candidate_in_table.
Qed.

(** [seed_movie_genre_ids] is the union of the liked movies' genre sets. *)
Lemma seed_movie_genre_ids_union :
  seed_movie_genre_ids db uid
  = ⋃ ((λ movie : obj Movie, id_set (genres db movie.1))
         <$> liked_movies db uid).
Proof.
  unfold seed_movie_genre_ids.
  induction (liked_movies db uid) as [|m l IH]; [done|].
  rewrite bind_cons, list_to_set_app_L, IH. done.
Qed.

Lemma candidate_has_language (m : obj Movie) :
  m ∈ candidate_movies db uid →
  ∃ l, l ∈ languages db m.1 ∧ l.1 ∈ user_pref_lang_ids db uid.
Proof.
  unfold candidate_movies, movies_in_languages.
  intros [Hex _]%list_elem_of_filter.
  apply Exists_exists in Hex as (l & ? & ?). eauto.
Qed.
End Scoring.

Lemma movie_score_formula (P S G : gset Z) :
  movie_score P S G
  = 10 * Z.of_nat (size (G ∩ P)) + 5 * Z.of_nat (size (G ∩ S)).
Proof.
  unfold movie_score.
  rewrite (comm_L (∩) P G), (comm_L (∩) S G). lia.
Qed.

Lemma movie_score_mono (P P' S G : gset Z) :
  P ⊆ P' → movie_score P S G <= movie_score P' S G.
Proof.
  intros HP. rewrite !movie_score_formula.
  assert (size (G ∩ P) ≤ size (G ∩ P'))%nat.
  { apply subseteq_size. set_solver. }
  lia.
Qed.

(** ** The recommendations route *)

Lemma recommendations_render db sess current_user :
  load_user db sess = Some current_user →
  has_completed_survey current_user.2 = true →
  recommendations db sess
  = {| res_db := db; res_flash := [];
       res_out :=
         Render (recommendations_html
                   (sorted_recommendations db current_user.1)) |}.
Proof. unfold recommendations. by intros -> ->. Qed.

Lemma recommended_sorted db sess current_user m s :
  load_user db sess = Some current_user →
  (m, s) ∈ recommended db sess →
  (m, s) ∈ sorted_recommendations db current_user.1.
Proof.
  unfold recommended, recommendations. intros ->.
  destruct (has_completed_survey _); simpl; [done|].
  by intros ?%elem_of_nil.
Qed.

(** C1: when the recommendations route renders its page for a user, every
    candidate movie that is not liked has the score ten times the number of
    its genres among the user's preferred genres plus five times the number
    of its genres in the union of the genres of the user's liked movies; it
    is on the page with that score unless the score is 0, and then it is
    absent; the page holds nothing else, and its pairs are in descending
    order of score. *)
Theorem C1_scores_weighted_nonzero_descending
    (db : DB) (sess : Session) (current_user : obj User) :
  load_user db sess = Some current_user →
  has_completed_survey current_user.2 = true →
  let uid := current_user.1 in
  let weighted (movie : obj Movie) : Z :=
    10 * Z.of_nat (size (id_set (genres db movie.1)
                           ∩ id_set (preferred_genres db uid)))
    + 5 * Z.of_nat (size (id_set (genres db movie.1)
                            ∩ ⋃ ((λ liked : obj Movie,
                                     id_set (genres db liked.1))
                                   <$> liked_movies db uid))) in
  ∃ recs,
    res_out (recommendations db sess) = Render (recommendations_html recs)
    ∧ (∀ movie, movie ∈ candidate_movies db uid →
         movie.1 ∉ liked_movie_ids db uid →
         score_of db uid movie.1 = weighted movie
         ∧ (weighted movie = 0 → ∀ s, (movie, s) ∉ recs)
         ∧ (weighted movie ≠ 0 → (movie, weighted movie) ∈ recs))
    ∧ (∀ movie s, (movie, s) ∈ recs →
         movie ∈ candidate_movies db uid
         ∧ (movie.1 ∉ liked_movie_ids db uid)
         ∧ s = weighted movie ∧ s ≠ 0)
    ∧ StronglySorted (λ a b, b.2 <= a.2) recs.
Proof.
  intros Huser Hdone uid weighted.
  assert (Hw : ∀ movie, score_of db uid movie.1 = weighted movie).
  { intros movie. unfold score_of, weighted.
    by rewrite movie_score_formula, seed_movie_genre_ids_union. }
  exists (sorted_recommendations db uid).
  rewrite (recommendations_render _ _ _ Huser Hdone). simpl.
  split_and!; [done| | |].
  - intros movie Hc Hl. split_and!; [done| |].
    + intros H0 s (_ & _ & -> & Hs)%elem_of_sorted_recommendations.
      rewrite <- Hw in H0. lia.
    + intros Hne. apply elem_of_sorted_recommendations.
      split_and!; [done|done|by rewrite Hw|].
      unfold weighted in *. lia.
  - intros movie s (? & ? & -> & ?)%elem_of_sorted_recommendations.
    rewrite <- Hw. split_and!; [done..|lia].
  - apply (sorted_by_desc (λ kv : obj Movie * Z, kv.2)).
Qed.

(** C2: a movie of the user's liked-movie set is not on the
    recommendations page, under any score. *)
Theorem C2_liked_movie_never_recommended
    (db : DB) (sess : Session) (current_user : obj User)
    (movie : obj Movie) (s : Z) :
  load_user db sess = Some current_user →
  movie ∈ liked_movies db current_user.1 →
  (movie, s) ∉ recommended db sess.
Proof.
  intros Huser Hliked Hin.
  apply (recommended_sorted _ _ _ _ _ Huser) in Hin.
  apply elem_of_sorted_recommendations in Hin as (_ & Hnot & _).
  apply Hnot, elem_of_id_set. exists movie.2. by destruct movie.
Qed.

(** C3: for a user without preferred languages the ranked list the
    recommendations route computes is empty: the page shows no pair, and
    once the survey flag lets the route rank at all it renders the empty
    list. *)
Theorem C3_no_preferred_language_no_recommendation
    (db : DB) (sess : Session) (current_user : obj User) :
  load_user db sess = Some current_user →
  preferred_languages db current_user.1 = [] →
  sorted_recommendations db current_user.1 = []
  ∧ recommended db sess = []
  ∧ (has_completed_survey current_user.2 = true →
     res_out (recommendations db sess) = Render (recommendations_html [])).
Proof.
  intros Huser Hnone.
  assert (Hempty : sorted_recommendations db current_user.1 = []).
  { destruct (sorted_recommendations db current_user.1) as [|[m s] recs]
      eqn:E; [done|].
    assert (Hin : (m, s) ∈ sorted_recommendations db current_user.1)
      by (rewrite E; left).
    apply elem_of_sorted_recommendations in Hin as (Hc & _).
    apply candidate_has_language in Hc as (l & _ & Hl).
    unfold user_pref_lang_ids in Hl. rewrite Hnone in Hl.
    by apply elem_of_id_set in Hl as [? ?%elem_of_nil]. }
  split_and!; [done| |].
  - unfold recommended, recommendations. rewrite Huser.
    destruct (has_completed_survey _); simpl; [by rewrite Hempty|done].
  - intros Hdone. rewrite (recommendations_render _ _ _ Huser Hdone). simpl.
    by rewrite Hempty.
Qed.

(** C4: a movie none of whose languages is a preferred language of the user
    is not on the recommendations page, whatever its genres. *)
Theorem C4_other_language_never_recommended
    (db : DB) (sess : Session) (current_user : obj User)
    (movie : obj Movie) (s : Z) :
  load_user db sess = Some current_user →
  id_set (languages db movie.1)
    ∩ id_set (preferred_languages db current_user.1) = ∅ →
  (movie, s) ∉ recommended db sess.
Proof.
  intros Huser Hdisj Hin.
  apply (recommended_sorted _ _ _ _ _ Huser) in Hin.
  apply elem_of_sorted_recommendations in Hin as (Hc & _).
  apply candidate_has_language in Hc as ([k v] & Hl & Hp).
  assert (k ∈ id_set (languages db movie.1)
            ∩ id_set (preferred_languages db current_user.1)) as Hk.
  { apply elem_of_intersection. split; [|done].
    apply elem_of_id_set. by exists v. }
  rewrite Hdisj in Hk. by apply elem_of_empty in Hk.
Qed.

(** C5: adding a genre to the preferred-genre set never lowers the score of
    a movie. *)
Theorem C5_score_monotone_in_preferred_genres
    (user_pref_genre_ids seed_movie_genre_ids movie_genre_ids : gset Z)
    (genre_id : Z) :
  movie_score user_pref_genre_ids seed_movie_genre_ids movie_genre_ids
  <= movie_score ({[ genre_id ]} ∪ user_pref_genre_ids)
       seed_movie_genre_ids movie_genre_ids.
Proof. apply movie_score_mono. set_solver. Qed.

(** ** Sessions, keys and the review table *)

Lemma load_user_Some db sess (current_user : obj User) :
  load_user db sess = Some current_user ↔
  sess = Some current_user.1
  ∧ user_table db !! current_user.1 = Some current_user.2.
Proof.
  unfold load_user. destruct sess as [uid|]; simpl; [|naive_solver].
  rewrite query_get_Some. naive_solver.
Qed.

Lemma foldr_max_ge (k : Z) (ks : list Z) (x : Z) :
  x ∈ k :: ks → x <= foldr Z.max k ks.
Proof.
  induction ks as [|y ks IH]; simpl.
  - intros ->%list_elem_of_singleton. lia.
  - rewrite !elem_of_cons. intros [->|[->|?]].
    + assert (k <= foldr Z.max k ks) by (apply IH; left). lia.
    + lia.
    + assert (x <= foldr Z.max k ks) by (apply IH; by right). lia.
Qed.

Lemma next_id_fresh {T} (t : gmap Z T) : t !! next_id t = None.
Proof.
  destruct (t !! next_id t) as [v|] eqn:E; [exfalso|done].
  apply elem_of_map_to_list in E.
  apply (list_elem_of_fmap_2 fst) in E. simpl in E.
  unfold next_id in E.
  destruct ((map_to_list t).*1) as [|k ks]; [by apply elem_of_nil in E|].
  apply foldr_max_ge in E. lia.
Qed.

Lemma query_all_insert {T} (t : gmap Z T) (i : Z) (x : T) :
  t !! i = None → query_all (<[i := x]> t) ≡ₚ (i, x) :: query_all t.
Proof.
  intros Hi. unfold query_all. rewrite !sorted_by_perm.
  by apply map_to_list_insert.
Qed.

(** The reviews of [uid] among those of movie [mid]. *)
Lemma elem_of_user_review db mid uid (r : obj Review) :
  r ∈ filter (λ r : obj Review, review_user_id r.2 = Some uid)
         (movie_reviews db mid)
  ↔ review_table db !! r.1 = Some r.2
    ∧ review_user_id r.2 = Some uid ∧ review_movie_id r.2 = Some mid.
Proof.
  unfold movie_reviews. rewrite !list_elem_of_filter.
  destruct r as [k v]. rewrite elem_of_query_all. naive_solver.
Qed.

Lemma user_review_None db mid uid :
  user_review_of db mid uid = None
  ↔ ∀ id r, review_table db !! id = Some r →
      review_movie_id r = Some mid → review_user_id r ≠ Some uid.
Proof.
  unfold user_review_of. split.
  - intros Hhead id r Hr Hm Hu.
    assert (Hin : (id, r) ∈ filter (λ r : obj Review,
                     review_user_id r.2 = Some uid) (movie_reviews db mid))
      by by apply elem_of_user_review.
    destruct (filter _ _); [by apply elem_of_nil in Hin|done].
  - intros Hnone.
    destruct (filter _ _) as [|r l] eqn:E; [done|exfalso].
    assert (Hin : r ∈ filter (λ r : obj Review,
                     review_user_id r.2 = Some uid) (movie_reviews db mid))
      by (rewrite E; left).
    apply elem_of_user_review in Hin as (? & ? & ?). naive_solver.
Qed.

(** ** The movie-detail route *)

Section MovieDetail.
Context (py_int : string → option Z)
        (db : DB) (sess : Session) (current_user : obj User)
        (movie_id : Z).
Hypothesis Huser : load_user db sess = Some current_user.
Hypothesis Hmovie : is_Some (movie_table db !! movie_id).

(** A submission by a user who has a review of the movie is turned down. *)
Lemma movie_detail_duplicate now form id r :
  review_table db !! id = Some r →
  review_user_id r = Some current_user.1 →
  review_movie_id r = Some movie_id →
  movie_detail py_int db now sess POST form movie_id
  = already_reviewed db movie_id.
Proof.
  intros Hr Hu Hm. unfold movie_detail. rewrite Huser.
  destruct Hmovie as [row Hrow]. unfold query_get at 1. rewrite Hrow.
  simpl.
  destruct (user_review_of _ _ _) eqn:E; [done|].
  rewrite user_review_None in E. by destruct (E id r).
Qed.

(** A submission without a rating, or with an empty one. *)
Lemma movie_detail_missing_rating now form :
  (∀ id r, review_table db !! id = Some r →
     review_movie_id r = Some movie_id →
     review_user_id r ≠ Some current_user.1) →
  form_get form "rating" = None ∨ form_get form "rating" = Some EmptyString →
  movie_detail py_int db now sess POST form movie_id
  = {| res_db := db;
       res_flash := [("You must provide a rating.", "error")];
       res_out := Redirect (url_movie_detail movie_id) |}.
Proof.
  intros Hnone Hrating. apply user_review_None in Hnone.
  unfold movie_detail.
  rewrite Huser. destruct Hmovie as [row Hrow].
  unfold query_get at 1. rewrite Hrow. simpl. rewrite Hnone.
  by destruct Hrating as [-> | ->].
Qed.

(** A first submission with an integer rating inserts the review. *)
Lemma movie_detail_created now form rating n :
  (∀ id r, review_table db !! id = Some r →
     review_movie_id r = Some movie_id →
     review_user_id r ≠ Some current_user.1) →
  form_get form "rating" = Some rating → rating ≠ EmptyString →
  py_int rating = Some n → fits_sqlite_integer n →
  movie_detail py_int db now sess POST form movie_id
  = {| res_db :=
         with_reviews db
           (<[next_id (review_table db) :=
                {| review_rating := PyInt n;
                   review_text := form_get form "review_text";
                   review_timestamp := Some now;
                   review_user_id := Some current_user.1;
                   review_movie_id := Some movie_id |}]>
              (review_table db));
       res_flash := [("Your review has been submitted!", "success")];
       res_out := Redirect (url_movie_detail movie_id) |}.
Proof.
  intros Hnone Hrating Hne Hint Hfits. apply user_review_None in Hnone.
  unfold movie_detail.
  rewrite Huser. destruct Hmovie as [row Hrow].
  unfold query_get at 1. rewrite Hrow. simpl. rewrite Hnone, Hrating.
  destruct rating as [|c rating]; [done|].
  rewrite Hint. by rewrite decide_True.
Qed.

(** What the page lists for the current user. *)
Lemma movie_detail_shows now form :
  filter (λ r : obj Review, review_user_id r.2 = Some current_user.1)
    (shown_reviews (movie_detail py_int db now sess GET form movie_id))
  ≡ₚ filter (λ r : obj Review, review_user_id r.2 = Some current_user.1)
       (movie_reviews db movie_id).
Proof.
  unfold movie_detail. rewrite Huser. destruct Hmovie as [row Hrow].
  unfold query_get at 1. rewrite Hrow. simpl.
  unfold shown_reviews, order_by_timestamp_desc. simpl.
  by rewrite sorted_by_perm.
Qed.
End MovieDetail.

(** The reviews a page can list come from the table: nothing but a first
    valid submission adds one, and that one has an integer rating. *)
Lemma movie_detail_review_table (py_int : string → option Z) db now sess method form movie_id :
  res_db (movie_detail py_int db now sess method form movie_id) = db
  ∨ ∃ uid n text,
      fits_sqlite_integer n
      ∧ (∀ id r, review_table db !! id = Some r →
           review_movie_id r = Some movie_id → review_user_id r ≠ Some uid)
      ∧ res_db (movie_detail py_int db now sess method form movie_id)
        = with_reviews db
            (<[next_id (review_table db) :=
                 {| review_rating := PyInt n; review_text := text;
                    review_timestamp := Some now;
                    review_user_id := Some uid;
                    review_movie_id := Some movie_id |}]>
               (review_table db)).
Proof.
  unfold movie_detail, unauthorized.
  destruct (load_user db sess) as [cu|]; [|by left].
  destruct (query_get _ movie_id) as [movie|] eqn:Hm; [|by left].
  apply query_get_Some in Hm as [Hid _].
  destruct method; [by left|].
  destruct (user_review_of _ _ _) eqn:Hrev; [by left|].
  rewrite user_review_None in Hrev. rewrite Hid in *.
  destruct (form_get form "rating") as [[|c rating]|]; [by left| |by left].
  destruct (py_int _) as [n|]; [|by left].
  case_decide; [|by left].
  right. by exists cu.1, n, (form_get form "review_text").
Qed.

(** ** One review for each user and movie *)

Lemma one_review_per_pair_insert db uid mid r :
  one_review_per_pair db →
  (∀ id r0, review_table db !! id = Some r0 →
     review_movie_id r0 = Some mid → review_user_id r0 ≠ Some uid) →
  review_user_id r = Some uid → review_movie_id r = Some mid →
  one_review_per_pair
    (with_reviews db (<[next_id (review_table db) := r]> (review_table db))).
Proof.
  intros Hinv Hnone Hu Hm id1 id2 r1 r2 u m H1 H2 Hu1 Hm1 Hu2 Hm2.
  simpl in H1, H2. rewrite lookup_insert in H1, H2.
  destruct (decide (next_id (review_table db) = id1)) as [E1|E1],
           (decide (next_id (review_table db) = id2)) as [E2|E2].
  - congruence.
  - injection H1 as <-. exfalso. apply (Hnone id2 r2); congruence.
  - injection H2 as <-. exfalso. apply (Hnone id1 r1); congruence.
  - by eapply Hinv.
Qed.

Lemma one_review_per_pair_same_keys db db' :
  (∀ id r', review_table db' !! id = Some r' →
     ∃ r, review_table db !! id = Some r
          ∧ review_user_id r = review_user_id r'
          ∧ review_movie_id r = review_movie_id r') →
  one_review_per_pair db → one_review_per_pair db'.
Proof.
  intros Hkeys Hinv id1 id2 r1 r2 u m H1 H2 Hu1 Hm1 Hu2 Hm2.
  destruct (Hkeys _ _ H1) as (r1' & ? & ? & ?).
  destruct (Hkeys _ _ H2) as (r2' & ? & ? & ?).
  apply (Hinv id1 id2 r1' r2' u m); congruence.
Qed.

Lemma one_review_per_pair_same_table db db' :
  review_table db' = review_table db →
  one_review_per_pair db → one_review_per_pair db'.
Proof.
  intros Heq. apply one_review_per_pair_same_keys.
  intros id r'. rewrite Heq. eauto.
Qed.

(** An edit keeps the user and the movie of every review. *)
Lemma edit_review_keys (integer_affinity : string → PyVal) db sess method form review_id id r' :
  review_table (res_db (edit_review integer_affinity db sess method form review_id)) !! id
    = Some r' →
  ∃ r, review_table db !! id = Some r
       ∧ review_user_id r = review_user_id r'
       ∧ review_movie_id r = review_movie_id r'.
Proof.
  unfold edit_review, unauthorized.
  destruct (load_user db sess) as [cu|]; [|eauto].
  destruct (query_get _ review_id) as [review|] eqn:Hq; [|eauto].
  apply query_get_Some in Hq as [Hid Hrow].
  case_decide; [|eauto].
  destruct method; [eauto|].
  destruct (form_index form "rating"); [eauto|].
  destruct (form_index form "review_text"); [eauto|]. simpl.
  rewrite lookup_insert. case_decide; [|eauto].
  intros [= <-]. subst. eauto.
Qed.

Lemma movie_detail_one_review_per_pair (py_int : string → option Z) db now sess method form movie_id :
  one_review_per_pair db →
  one_review_per_pair (res_db (movie_detail py_int db now sess method form movie_id)).
Proof.
  intros Hinv.
  destruct (movie_detail_review_table py_int db now sess method form
              movie_id)
    as [->|(uid & n & text & _ & Hnone & ->)]; [done|].
  by eapply one_review_per_pair_insert.
Qed.

Lemma toggle_watchlist_review_table db sess movie_id :
  review_table (res_db (toggle_watchlist db sess movie_id)) = review_table db.
Proof. unfold toggle_watchlist, unauthorized. by repeat case_match. Qed.

Lemma recommendations_db db sess : res_db (recommendations db sess) = db.
Proof. unfold recommendations, unauthorized. by repeat case_match. Qed.

Section EngineFacts.
Context (py_int : string → option Z) (integer_affinity : string → PyVal)
        (generate_password_hash : string → string → string)
        (sql_eq_text : Z → string → bool).

Lemma register_review_table db sess method form salt :
  review_table
    (res_db (register generate_password_hash db sess method form salt))
  = review_table db.
Proof. unfold register. by repeat case_match. Qed.

Lemma survey_review_table db sess method form :
  review_table (res_db (survey sql_eq_text db sess method form))
  = review_table db.
Proof. unfold survey, unauthorized. by repeat case_match. Qed.

Lemma create_admin_review_table db name password salt :
  review_table
    (create_admin_command generate_password_hash db name password salt)
  = review_table db.
Proof. unfold create_admin_command. by case_match. Qed.

Lemma handle_one_review_per_pair db now sess req :
  one_review_per_pair db →
  one_review_per_pair
    (res_db (handle py_int integer_affinity generate_password_hash sql_eq_text db now sess req)).
Proof.
  destruct req; simpl.
  - apply movie_detail_one_review_per_pair.
  - apply one_review_per_pair_same_table, register_review_table.
  - apply one_review_per_pair_same_table, survey_review_table.
  - by rewrite recommendations_db.
  - apply one_review_per_pair_same_table, toggle_watchlist_review_table.
  - apply one_review_per_pair_same_keys. apply edit_review_keys.
Qed.

(** A registration under a name in use. *)
Lemma register_duplicate_username db sess form salt name password user :
  load_user db sess = None →
  form_get form "username" = Some name →
  form_get form "password" = Some password →
  user_table db !! user.1 = Some user.2 → username user.2 = name →
  register generate_password_hash db sess POST form salt
  = {| res_db := db;
       res_flash := [("Username already exists.", "error")];
       res_out := Redirect url_register |}.
Proof.
  intros Hanon Hname Hpw Huser Heq. unfold register, form_index.
  rewrite Hanon, Hname, Hpw.
  destruct (user_by_name db name) eqn:E; [done|exfalso].
  unfold user_by_name in E.
  assert (Hin : user ∈ filter (λ u : obj User, username u.2 = name)
                         (query_all (user_table db))).
  { apply list_elem_of_filter. split; [done|].
    destruct user. by apply elem_of_query_all. }
  destruct (filter _ _); [by apply elem_of_nil in Hin|done].
Qed.
End EngineFacts.

Lemma edit_profile_review_table secure_filename splitext_ext base db sess
    method form files uuid_hex :
  review_table
    (rep_db (edit_profile secure_filename splitext_ext base db sess method
               form files uuid_hex))
  = review_table db.
Proof. unfold edit_profile, login_redirect, reply. by repeat case_match. Qed.

Lemma reachable_app_one_review_per_pair secure_filename splitext_ext base
    py_int integer_affinity hash sql_eq_text db :
  reachable_app secure_filename splitext_ext base py_int integer_affinity
    hash sql_eq_text db →
  one_review_per_pair db.
Proof.
  induction 1 as [|db db' _ IH Hstep|db db' _ IH Hstep].
  - intros id1 id2 r1 r2 u m H1. simpl in H1.
    by rewrite lookup_empty in H1.
  - destruct Hstep as [now sess req|sess method form files uuid_hex].
    + by apply handle_one_review_per_pair.
    + eapply one_review_per_pair_same_table; [|exact IH].
      apply edit_profile_review_table.
  - destruct Hstep as [|name password salt].
    + intros id1 id2 r1 r2 u m H1. simpl in H1.
      by rewrite lookup_empty in H1.
    + eapply one_review_per_pair_same_table; [|exact IH].
      apply create_admin_review_table.
Qed.

Lemma user_review_of_None_nil db mid uid :
  user_review_of db mid uid = None →
  filter (λ r : obj Review, review_user_id r.2 = Some uid)
    (movie_reviews db mid) = [].
Proof. unfold user_review_of. by destruct (filter _ _). Qed.

Lemma movie_reviews_insert db mid uid (r : Review) :
  review_movie_id r = Some mid → review_user_id r = Some uid →
  user_review_of db mid uid = None →
  filter (λ r : obj Review, review_user_id r.2 = Some uid)
    (movie_reviews
       (with_reviews db (<[next_id (review_table db) := r]> (review_table db)))
       mid)
  = [(next_id (review_table db), r)].
Proof.
  intros Hm Hu Hnone. apply Permutation_singleton_r.
  unfold movie_reviews at 1. simpl.
  rewrite (query_all_insert _ _ _ (next_id_fresh _)).
  rewrite filter_cons_True by done. rewrite filter_cons_True by done.
  fold (movie_reviews db mid).
  by rewrite (user_review_of_None_nil _ _ _ Hnone).
Qed.

(** C6, for the routes of [app.py]: a first submission on the movie-detail
    route, with a rating field that is not empty, that [int] accepts and
    whose integer SQLite can hold, is accepted, and the page of that movie
    then lists exactly one review of the submitting user, with that integer
    as rating and the submitted text; a further submission by that user for
    that movie is turned down and leaves the database as it is; and every
    database reached from the empty schema through the routes of [app.py]
    and its maintenance commands, one request after the other and the
    administrator panel apart, holds at most one review for each user and
    movie. *)
Theorem C6_review_round_trip_once_per_pair
    (secure_filename splitext_ext : string → string) (BASE_DIR : string)
    (py_int : string → option Z) (integer_affinity : string → PyVal)
    (generate_password_hash : string → string → string)
    (sql_eq_text : Z → string → bool) :
  (∀ db, reachable_app secure_filename splitext_ext BASE_DIR py_int
           integer_affinity generate_password_hash sql_eq_text db →
         one_review_per_pair db)
  ∧ ∀ db now sess (current_user : obj User) movie_id form rating n,
      load_user db sess = Some current_user →
      is_Some (movie_table db !! movie_id) →
      user_review_of db movie_id current_user.1 = None →
      form_get form "rating" = Some rating → rating ≠ EmptyString →
      py_int rating = Some n → fits_sqlite_integer n →
      let submitted := movie_detail py_int db now sess POST form movie_id in
      res_flash submitted = [("Your review has been submitted!", "success")]
      ∧ (∀ now' form', ∃ id review,
           filter (λ r : obj Review,
                     review_user_id r.2 = Some current_user.1)
             (shown_reviews
                (movie_detail py_int (res_db submitted) now' sess GET form'
                   movie_id))
           = [(id, review)]
           ∧ review_rating review = PyInt n
           ∧ review_text review = form_get form "review_text")
      ∧ (∀ now' form',
           movie_detail py_int (res_db submitted) now' sess POST form'
             movie_id
           = already_reviewed (res_db submitted) movie_id).
Proof.
  split; [apply reachable_app_one_review_per_pair|].
  intros db now sess current_user movie_id form rating n
    Huser Hmovie Hnone Hrating Hne Hint Hfits submitted.
  assert (Hnone' := proj1 (user_review_None _ _ _) Hnone).
  unfold submitted.
  rewrite (movie_detail_created py_int db sess current_user movie_id Huser
             Hmovie now form rating n Hnone' Hrating Hne Hint Hfits). simpl.
  set (new_review := {| review_rating := PyInt n |}).
  set (db' := with_reviews db _).
  assert (Huser' : load_user db' sess = Some current_user).
  { apply load_user_Some. by apply load_user_Some in Huser. }
  assert (Hmovie' : is_Some (movie_table db' !! movie_id)) by done.
  split_and!; [done| |].
  - intros now' form'. exists (next_id (review_table db)), new_review.
    split; [|done].
    apply Permutation_singleton_r.
    rewrite (movie_detail_shows py_int db' sess current_user movie_id Huser'
               Hmovie').
    unfold db'.
    by rewrite (movie_reviews_insert db movie_id current_user.1 new_review).
  - intros now' form'.
    apply (movie_detail_duplicate py_int db' sess current_user movie_id
             Huser' Hmovie' now' form' (next_id (review_table db))
             new_review);
      [|done..].
    apply lookup_insert_eq.
Qed.

(** ** Review edits *)

Section EditReview.
Context (integer_affinity : string → PyVal)
        (db : DB) (sess : Session) (current_user : obj User)
        (review_id : Z) (review : Review).
Hypothesis Huser : load_user db sess = Some current_user.
Hypothesis Hreview : review_table db !! review_id = Some review.
Hypothesis Hauthor : review_user_id review = Some current_user.1.

(** The POST branch, for the author of the review. *)
Lemma edit_review_post form :
  edit_review integer_affinity db sess POST form review_id
  = match form_index form "rating" with
    | inl exc => {| res_db := db; res_flash := []; res_out := Raise exc |}
    | inr rating =>
    match form_index form "review_text" with
    | inl exc => {| res_db := db; res_flash := []; res_out := Raise exc |}
    | inr text =>
        {| res_db :=
             with_reviews db
               (<[review_id :=
                    {| review_rating := integer_affinity rating;
                       review_text := Some text;
                       review_timestamp := review_timestamp review;
                       review_user_id := review_user_id review;
                       review_movie_id := review_movie_id review |}]>
                  (review_table db));
           res_flash := [("Your review has been updated!", "success")];
           res_out :=
             match review_movie_id review with
             | Some movie_id => Redirect (url_movie_detail movie_id)
             | None => Raise BuildError
             end |}
    end
    end.
Proof.
  unfold edit_review. rewrite Huser.
  unfold query_get at 1. rewrite Hreview. simpl. rewrite Hauthor. simpl.
  apply load_user_Some in Huser as [_ Hrow].
  unfold query_get. rewrite Hrow. simpl.
  by rewrite decide_True.
Qed.
End EditReview.

(** C7, at the review edit: an edit by the review's author whose form has
    no rating field ends in [BadRequestKeyError], with no message flashed
    and no redirect. *)
Theorem C7_edit_review_missing_rating_raises
    (integer_affinity : string → PyVal)
    (db : DB) (sess : Session) (current_user : obj User) (review_id : Z)
    (review : Review) (form : Form) :
  load_user db sess = Some current_user →
  review_table db !! review_id = Some review →
  review_user_id review = Some current_user.1 →
  form_get form "rating" = None →
  edit_review integer_affinity db sess POST form review_id
  = {| res_db := db; res_flash := [];
       res_out := Raise (BadRequestKeyError "rating") |}.
Proof.
  intros Huser Hreview Hauthor Hrating.
  rewrite (edit_review_post _ _ _ _ _ _ Huser Hreview Hauthor).
  unfold form_index. by rewrite Hrating.
Qed.

(** C8, at the review edit: an edit by the review's author binds the rating
    as the string of the form, with no conversion; for a string that
    SQLite's column affinity leaves a text, as it does every string that is
    no numeral, the stored rating is that string, not an integer. *)
Theorem C8_edit_review_stores_form_string
    (integer_affinity : string → PyVal)
    (db : DB) (sess : Session) (current_user : obj User) (review_id : Z)
    (review : Review) (form : Form) (rating text : string) :
  load_user db sess = Some current_user →
  review_table db !! review_id = Some review →
  review_user_id review = Some current_user.1 →
  form_get form "rating" = Some rating →
  form_get form "review_text" = Some text →
  integer_affinity rating = PyStr rating →
  review_rating
    <$> review_table
          (res_db (edit_review integer_affinity db sess POST form review_id))
          !! review_id
  = Some (PyStr rating).
Proof.
  intros Huser Hreview Hauthor Hrating Htext Hkept.
  rewrite (edit_review_post _ _ _ _ _ _ Huser Hreview Hauthor).
  unfold form_index. rewrite Hrating, Htext. simpl.
  by rewrite lookup_insert_eq, Hkept.
Qed.

(** ** The watchlist toggle *)

Lemma watchlist_member db uid (movie : obj Movie) :
  movie_table db !! movie.1 = Some movie.2 →
  movie.1 ∈ (watchlist db uid).*1 ↔ (uid, movie.1) ∈ user_watchlist db.
Proof.
  intros Hrow. rewrite list_elem_of_fmap. split.
  - intros (o & -> & Ho). by apply elem_of_secondary in Ho as [_ ?].
  - intros Hin. exists movie. split; [done|]. by apply elem_of_secondary.
Qed.

Lemma toggle_row_twice (w : gset (Z * Z)) (p : Z * Z) :
  let w1 := if decide (p ∈ w) then w ∖ {[ p ]} else w ∪ {[ p ]} in
  (if decide (p ∈ w1) then w1 ∖ {[ p ]} else w1 ∪ {[ p ]}) = w.
Proof.
  simpl. destruct (decide (p ∈ w)) as [Hin|Hout].
  - rewrite decide_False by set_solver.
    apply set_eq. intros q. destruct (decide (q = p)); set_solver.
  - rewrite decide_True by set_solver. set_solver.
Qed.

Lemma toggle_watchlist_db db sess (current_user : obj User) movie_id :
  load_user db sess = Some current_user →
  is_Some (movie_table db !! movie_id) →
  res_db (toggle_watchlist db sess movie_id)
  = with_watchlist db
      (if decide ((current_user.1, movie_id) ∈ user_watchlist db)
       then user_watchlist db ∖ {[ (current_user.1, movie_id) ]}
       else user_watchlist db ∪ {[ (current_user.1, movie_id) ]}).
Proof.
  intros Huser [row Hrow]. unfold toggle_watchlist. rewrite Huser.
  unfold query_get. rewrite Hrow. simpl.
  pose proof (watchlist_member db current_user.1 (movie_id, row) Hrow) as Hw.
  simpl in Hw. by repeat case_decide; try tauto.
Qed.

(** C9: for a logged-in user and a movie of the catalogue, one toggle puts
    the movie on the user's watchlist exactly when it was not on it; two
    toggles give back the database they started from; and one toggle leaves
    every table but the watchlist as it was and changes no watchlist row
    but that of this user and movie. *)
Theorem C9_toggle_watchlist_involution_frame
    (db : DB) (sess : Session) (current_user : obj User) (movie_id : Z)
    (movie : obj Movie) :
  load_user db sess = Some current_user →
  query_get (movie_table db) movie_id = Some movie →
  let db1 := res_db (toggle_watchlist db sess movie_id) in
  (movie ∈ watchlist db1 current_user.1
   ↔ movie ∉ watchlist db current_user.1)
  ∧ res_db (toggle_watchlist db1 sess movie_id) = db
  ∧ (user_table db1 = user_table db ∧ movie_table db1 = movie_table db
     ∧ genre_table db1 = genre_table db
     ∧ language_table db1 = language_table db
     ∧ review_table db1 = review_table db
     ∧ user_genre_preferences db1 = user_genre_preferences db
     ∧ user_liked_movies db1 = user_liked_movies db
     ∧ user_language_preferences db1 = user_language_preferences db
     ∧ movie_genres db1 = movie_genres db
     ∧ movie_languages db1 = movie_languages db)
  ∧ (∀ uid mid, (uid, mid) ≠ (current_user.1, movie_id) →
       (uid, mid) ∈ user_watchlist db1 ↔ (uid, mid) ∈ user_watchlist db).
Proof.
  intros Huser [Hid Hrow]%query_get_Some db1.
  assert (Hmovie : is_Some (movie_table db !! movie_id)) by eauto.
  assert (Hdb1 := toggle_watchlist_db db sess current_user movie_id
                    Huser Hmovie).
  fold db1 in Hdb1.
  assert (Huser1 : load_user db1 sess = Some current_user).
  { rewrite Hdb1. apply load_user_Some. by apply load_user_Some in Huser. }
  assert (Hmovie1 : is_Some (movie_table db1 !! movie_id))
    by by rewrite Hdb1.
  assert (Hdb2 := toggle_watchlist_db db1 sess current_user movie_id
                    Huser1 Hmovie1).
  refine (conj _ (conj _ (conj _ _))).
  - unfold watchlist. rewrite !elem_of_secondary. rewrite Hdb1. simpl.
    rewrite Hid.
    destruct (decide ((current_user.1, movie_id) ∈ user_watchlist db)).
    + rewrite elem_of_difference, elem_of_singleton. tauto.
    + rewrite elem_of_union, elem_of_singleton. tauto.
  - rewrite Hdb2, Hdb1. destruct db. unfold with_watchlist. simpl.
    f_equal. apply toggle_row_twice.
  - rewrite Hdb1. by split_and!.
  - intros uid mid Hne. rewrite Hdb1. simpl.
    destruct (decide ((current_user.1, movie_id) ∈ user_watchlist db));
      set_solver.
Qed.

(** ** The survey *)

Lemma elem_of_assigned {T} (target : gmap Z T) (assoc : gset (Z * Z))
    (owner : Z) (new : list (obj T)) (o : obj T) :
  (∀ x, x ∈ new → target !! x.1 = Some x.2) →
  o ∈ secondary target
        (assign_collection assoc owner (secondary target assoc owner) new)
        owner
  ↔ o ∈ new.
Proof.
  intros Hnew. rewrite elem_of_secondary. unfold assign_collection.
  rewrite elem_of_union, elem_of_difference, !elem_of_list_to_set,
    !list_elem_of_fmap.
  split.
  - intros [Hrow [[Hin Hold]|(x & [= Hx] & Hin)]].
    + destruct Hold. exists o. split; [done|]. by apply elem_of_secondary.
    + assert (x = o) as ->; [|done].
      destruct x as [k v], o as [k' v']. simpl in *. subst k'.
      apply Hnew in Hin. simpl in Hin. congruence.
  - intros Hin. split; [by apply Hnew|]. right. by exists o.
Qed.

Section Survey.
Context (sql_eq_text : Z → string → bool).

Lemma elem_of_query_id_in {T} (t : gmap Z T) (ids : list string)
    (o : obj T) :
  o ∈ query_id_in sql_eq_text t ids
  ↔ t !! o.1 = Some o.2 ∧ ∃ s, s ∈ ids ∧ sql_eq_text o.1 s = true.
Proof.
  unfold query_id_in. rewrite list_elem_of_filter, Exists_exists.
  destruct o as [k v]. rewrite elem_of_query_all. simpl. tauto.
Qed.

Lemma survey_post db sess (current_user : obj User) form :
  load_user db sess = Some current_user →
  let uid := current_user.1 in
  let db' := res_db (survey sql_eq_text db sess POST form) in
  preferred_languages db' uid
  = secondary (language_table db)
      (assign_collection (user_language_preferences db) uid
         (preferred_languages db uid)
         (query_id_in sql_eq_text (language_table db)
            (form_getlist form "languages"))) uid
  ∧ preferred_genres db' uid
    = secondary (genre_table db)
        (assign_collection (user_genre_preferences db) uid
           (preferred_genres db uid)
           (query_id_in sql_eq_text (genre_table db)
              (form_getlist form "genres"))) uid
  ∧ liked_movies db' uid
    = secondary (movie_table db)
        (assign_collection (user_liked_movies db) uid
           (liked_movies db uid)
           (query_id_in sql_eq_text (movie_table db)
              (form_getlist form "liked_movies"))) uid
  ∧ has_completed_survey <$> user_table db' !! uid = Some true.
Proof.
  intros Huser uid db'. unfold db', survey. rewrite Huser. simpl.
  split_and!; [done..|]. by rewrite lookup_insert_eq.
Qed.
End Survey.

(** C10: a survey submission makes the user's preferred languages,
    preferred genres and liked movies exactly the entities whose keys are
    among the values of the respective form field, whatever was stored
    before, and sets the user's survey flag; and for a user whose flag is
    unset the recommendations route flashes a notice and redirects to the
    survey, rendering no ranking. *)
Theorem C10_survey_replaces_preferences
    (sql_eq_text : Z → string → bool) :
  (∀ db sess (current_user : obj User) form,
     load_user db sess = Some current_user →
     let uid := current_user.1 in
     let db' := res_db (survey sql_eq_text db sess POST form) in
     (∀ l, l ∈ preferred_languages db' uid
           ↔ selected sql_eq_text form "languages" (language_table db) l)
     ∧ (∀ g, g ∈ preferred_genres db' uid
             ↔ selected sql_eq_text form "genres" (genre_table db) g)
     ∧ (∀ m, m ∈ liked_movies db' uid
             ↔ selected sql_eq_text form "liked_movies" (movie_table db) m)
     ∧ has_completed_survey <$> user_table db' !! uid = Some true)
  ∧ (∀ db sess (current_user : obj User),
       load_user db sess = Some current_user →
       has_completed_survey current_user.2 = false →
       recommendations db sess
       = {| res_db := db;
            res_flash :=
              [("Please complete the survey to get recommendations.",
                "info")];
            res_out := Redirect url_survey |}).
Proof.
  split.
  - intros db sess current_user form Huser uid db'.
    destruct (survey_post sql_eq_text db sess current_user form Huser)
      as (Hl & Hg & Hm & Hflag).
    fold uid db' in Hl, Hg, Hm, Hflag.
    assert (Hsel : ∀ T (t : gmap Z T) field assoc (o : obj T),
      o ∈ secondary t
            (assign_collection assoc uid (secondary t assoc uid)
               (query_id_in sql_eq_text t (form_getlist form field))) uid
      ↔ selected sql_eq_text form field t o).
    { intros T t field assoc o. rewrite elem_of_assigned.
      - apply elem_of_query_id_in.
      - by intros x [? _]%elem_of_query_id_in. }
    split_and!; [| | |done].
    + intros l. rewrite Hl. apply Hsel.
    + intros g. rewrite Hg. apply Hsel.
    + intros m. rewrite Hm. apply Hsel.
  - intros db sess current_user Huser Hflag.
    unfold recommendations. by rewrite Huser, Hflag.
Qed.

(** * The theorems at the sample data *)

Example sample_recommended :
  (λ kv : obj Movie * Z, (kv.1.1, kv.2))
    <$> recommended sample_surveyed (Some 1)
  = [(1, 15); (2, 10)].
Proof. vm_compute. reflexivity. Qed.

Example sample_int_samples :
  sample_int "5" = Some 5 ∧ sample_int " -12 " = Some (-12)
  ∧ sample_int "1_000" = Some 1000 ∧ sample_int "1__0" = None
  ∧ sample_int "abc" = None ∧ sample_int "4.5" = None
  ∧ sample_int EmptyString = None
  ∧ sample_affinity "3" = PyInt 3 ∧ sample_affinity "abc" = PyStr "abc".
Proof. vm_compute. by split_and!. Qed.

Lemma C1_witness :
  load_user sample_surveyed (Some 1) = Some sample_alice
  ∧ has_completed_survey sample_alice.2 = true
  ∧ ∃ recs,
      res_out (recommendations sample_surveyed (Some 1))
      = Render (recommendations_html recs)
      ∧ StronglySorted (λ a b, b.2 <= a.2) recs.
Proof.
  assert (Huser : load_user sample_surveyed (Some 1) = Some sample_alice)
    by (vm_compute; reflexivity).
  split; [exact Huser|]. split; [reflexivity|].
  destruct (C1_scores_weighted_nonzero_descending sample_surveyed (Some 1)
              sample_alice Huser eq_refl)
    as (recs & Hout & _ & _ & Hsorted).
  exists recs. by split.
Defined.

Lemma C2_witness :
  load_user sample_surveyed (Some 1) = Some sample_alice
  ∧ (3, m3) ∈ liked_movies sample_surveyed 1
  ∧ (3, m3, 25) ∉ recommended sample_surveyed (Some 1).
Proof.
  assert (Huser : load_user sample_surveyed (Some 1) = Some sample_alice)
    by (vm_compute; reflexivity).
  assert (Hliked : (3, m3) ∈ liked_movies sample_surveyed sample_alice.1).
  { apply elem_of_secondary. split; vm_compute; reflexivity. }
  split; [exact Huser|]. split; [exact Hliked|].
  exact (C2_liked_movie_never_recommended sample_surveyed (Some 1)
           sample_alice (3, m3) 25 Huser Hliked).
Defined.

Lemma C3_witness :
  load_user sample_no_language (Some 1) = Some sample_alice
  ∧ preferred_languages sample_no_language 1 = []
  ∧ res_out (recommendations sample_no_language (Some 1))
    = Render (recommendations_html []).
Proof.
  assert (Huser : load_user sample_no_language (Some 1) = Some sample_alice)
    by (vm_compute; reflexivity).
  assert (Hnone : preferred_languages sample_no_language sample_alice.1 = [])
    by (vm_compute; reflexivity).
  split; [exact Huser|]. split; [exact Hnone|].
  exact (proj2 (proj2 (C3_no_preferred_language_no_recommendation
                         sample_no_language (Some 1) sample_alice
                         Huser Hnone)) eq_refl).
Defined.

Lemma C4_witness :
  load_user sample_surveyed (Some 1) = Some sample_alice
  ∧ id_set (languages sample_surveyed 4)
      ∩ id_set (preferred_languages sample_surveyed 1) = ∅
  ∧ (4, m4, 5) ∉ recommended sample_surveyed (Some 1).
Proof.
  assert (Huser : load_user sample_surveyed (Some 1) = Some sample_alice)
    by (vm_compute; reflexivity).
  assert (Hdisj : id_set (languages sample_surveyed (4, m4).1)
                    ∩ id_set (preferred_languages sample_surveyed
                                sample_alice.1) = ∅)
    by (vm_compute; reflexivity).
  split; [exact Huser|]. split; [exact Hdisj|].
  exact (C4_other_language_never_recommended sample_surveyed (Some 1)
           sample_alice (4, m4) 5 Huser Hdisj).
Defined.

Lemma C6_witness :
  load_user sample_surveyed (Some 1) = Some sample_alice
  ∧ user_review_of sample_surveyed 2 1 = None
  ∧ sample_int "5" = Some 5
  ∧ res_flash
      (movie_detail sample_int sample_surveyed 1700000000 (Some 1) POST
         [("rating", "5"); ("review_text", "Mind-bending.")] 2)
    = [("Your review has been submitted!", "success")].
Proof.
  assert (Huser : load_user sample_surveyed (Some 1) = Some sample_alice)
    by (vm_compute; reflexivity).
  assert (Hmovie : is_Some (movie_table sample_surveyed !! 2))
    by (exists m2; vm_compute; reflexivity).
  assert (Hnone : user_review_of sample_surveyed 2 sample_alice.1 = None)
    by (vm_compute; reflexivity).
  assert (Hfits : fits_sqlite_integer 5) by (unfold fits_sqlite_integer; lia).
  assert (Hne : "5" ≠ EmptyString) by discriminate.
  split; [exact Huser|]. split; [exact Hnone|]. split; [reflexivity|].
  exact (proj1 (proj2 (C6_review_round_trip_once_per_pair
                         sample_secure_filename sample_splitext
                         sample_base_dir sample_int sample_affinity
                         sample_hash decimal_eq_text)
                  sample_surveyed 1700000000 (Some 1) sample_alice 2
                  [("rating", "5"); ("review_text", "Mind-bending.")]
                  "5" 5 Huser Hmovie Hnone eq_refl Hne eq_refl Hfits)).
Defined.

(** The second review an administrator enters for a movie is stored beside
    the first. *)
Lemma C6_counterexample :
  reachable_site sample_secure_filename sample_splitext sample_base_dir
    sample_int sample_affinity sample_hash decimal_eq_text
    sample_admin_twice
  ∧ ¬ one_review_per_pair sample_admin_twice.
Proof.
  split.
  - eapply site_panel; [|exact (panel_create_review sample_admin_reviewed
                                  (Some 1) 1 (Some "Overrated.") 1700000100
                                  1 2)].
    eapply site_web;
      [|exact (web_request _ _ _ _ _ _ _ sample_admin 1700000000 (Some 1)
                 (req_movie_detail POST
                    [("rating", "5"); ("review_text", "Mind-bending.")] 2))].
    eapply site_cli; [|exact (cli_create_admin _ seed_db "root" "toor" "salt")].
    eapply site_cli; [apply site_init|apply cli_seed].
  - intros Hone.
    assert (H12 : (1 : Z) = 2); [|discriminate].
    apply (Hone 1 2
             {| review_rating := PyInt 5;
                review_text := Some "Mind-bending.";
                review_timestamp := Some 1700000000;
                review_user_id := Some 1; review_movie_id := Some 2 |}
             {| review_rating := PyInt 1; review_text := Some "Overrated.";
                review_timestamp := Some 1700000100;
                review_user_id := Some 1; review_movie_id := Some 2 |}
             1 2); vm_compute; reflexivity.
Qed.

Lemma C7_witness :
  load_user sample_reviewed (Some 1) = Some sample_alice
  ∧ review_table sample_reviewed !! 1 = Some sample_review
  ∧ form_get [("review_text", "Changed my mind.")] "rating" = None
  ∧ edit_review sample_affinity sample_reviewed (Some 1) POST
      [("review_text", "Changed my mind.")] 1
    = {| res_db := sample_reviewed; res_flash := [];
         res_out := Raise (BadRequestKeyError "rating") |}.
Proof.
  assert (Huser : load_user sample_reviewed (Some 1) = Some sample_alice)
    by (vm_compute; reflexivity).
  assert (Hreview : review_table sample_reviewed !! 1 = Some sample_review)
    by (vm_compute; reflexivity).
  split; [exact Huser|]. split; [exact Hreview|]. split; [reflexivity|].
  exact (C7_edit_review_missing_rating_raises sample_affinity
           sample_reviewed (Some 1)
           sample_alice 1 sample_review
           [("review_text", "Changed my mind.")]
           Huser Hreview eq_refl eq_refl).
Defined.

Lemma C8_witness :
  load_user sample_reviewed (Some 1) = Some sample_alice
  ∧ review_table sample_reviewed !! 1 = Some sample_review
  ∧ sample_affinity "abc" = PyStr "abc"
  ∧ review_rating
      <$> review_table
            (res_db (edit_review sample_affinity sample_reviewed (Some 1) POST
                       [("rating", "abc"); ("review_text", "Fine.")] 1))
            !! 1
    = Some (PyStr "abc").
Proof.
  assert (Huser : load_user sample_reviewed (Some 1) = Some sample_alice)
    by (vm_compute; reflexivity).
  assert (Hreview : review_table sample_reviewed !! 1 = Some sample_review)
    by (vm_compute; reflexivity).
  split; [exact Huser|]. split; [exact Hreview|]. split; [reflexivity|].
  exact (C8_edit_review_stores_form_string sample_affinity sample_reviewed
           (Some 1) sample_alice 1 sample_review
           [("rating", "abc"); ("review_text", "Fine.")] "abc" "Fine."
           Huser Hreview eq_refl eq_refl eq_refl eq_refl).
Defined.

Lemma C9_witness :
  load_user sample_surveyed (Some 1) = Some sample_alice
  ∧ query_get (movie_table sample_surveyed) 2 = Some (2, m2)
  ∧ res_db (toggle_watchlist
              (res_db (toggle_watchlist sample_surveyed (Some 1) 2))
              (Some 1) 2)
    = sample_surveyed.
Proof.
  assert (Huser : load_user sample_surveyed (Some 1) = Some sample_alice)
    by (vm_compute; reflexivity).
  assert (Hmovie : query_get (movie_table sample_surveyed) 2 = Some (2, m2))
    by (vm_compute; reflexivity).
  split; [exact Huser|]. split; [exact Hmovie|].
  exact (proj1 (proj2 (C9_toggle_watchlist_involution_frame sample_surveyed
                         (Some 1) sample_alice 2 (2, m2) Huser Hmovie))).
Defined.

Lemma C10_witness :
  load_user sample_registered (Some 1) = Some sample_alice_new
  ∧ has_completed_survey
      <$> user_table
            (res_db (survey decimal_eq_text sample_registered (Some 1) POST
                       [("languages", "1"); ("genres", "1");
                        ("liked_movies", "3")])) !! 1
    = Some true
  ∧ res_out (recommendations sample_registered (Some 1))
    = Redirect url_survey.
Proof.
  assert (Huser : load_user sample_registered (Some 1)
                  = Some sample_alice_new)
    by (vm_compute; reflexivity).
  split; [exact Huser|]. split.
  - exact (proj2 (proj2 (proj2
             (proj1 (C10_survey_replaces_preferences decimal_eq_text)
                sample_registered (Some 1) sample_alice_new
                [("languages", "1"); ("genres", "1"); ("liked_movies", "3")]
                Huser)))).
  - exact (f_equal res_out
             (proj2 (C10_survey_replaces_preferences decimal_eq_text)
                sample_registered (Some 1) sample_alice_new Huser eq_refl)).
Defined.

(** * Further properties *)

(** ** The ranking *)

(** X1: a user without preferred genres and without liked movies gets no
    recommendation: every candidate scores 0 and is dropped. *)
Theorem X1_no_genre_no_like_no_recommendation (db : DB) (uid : Z) :
  preferred_genres db uid = [] → liked_movies db uid = [] →
  sorted_recommendations db uid = [].
Proof.
  intros Hg Hl.
  destruct (sorted_recommendations db uid) as [|[m s] recs] eqn:E; [done|].
  assert (Hin : (m, s) ∈ sorted_recommendations db uid) by (rewrite E; left).
  apply elem_of_sorted_recommendations in Hin as (_ & _ & -> & Hpos).
  exfalso. revert Hpos.
  unfold score_of, user_pref_genre_ids, seed_movie_genre_ids.
  rewrite Hg, Hl, movie_score_formula. simpl.
  unfold id_set at 2. simpl.
  rewrite !(right_absorb_L ∅ (∩)), size_empty. lia.
Qed.

Lemma dict_set_keys d k v :
  (λ kv : obj Movie * Z, kv.1.1) <$> dict_set d k v
  = if decide (k.1 ∈ (λ kv : obj Movie * Z, kv.1.1) <$> d)
    then (λ kv : obj Movie * Z, kv.1.1) <$> d
    else (((λ kv : obj Movie * Z, kv.1.1) <$> d) ++ [k.1])%list.
Proof.
  induction d as [|[k0 v0] d IH]; [done|].
  cbn [dict_set]. rewrite !fmap_cons. cbn [fst snd].
  destruct (decide (k0.1 = k.1)) as [Heq|Hne].
  - rewrite decide_True; [done|]. rewrite Heq. left.
  - rewrite fmap_cons, IH. cbn [fst snd].
    destruct (decide (k.1 ∈ _ <$> d)) as [Hin|Hout].
    + rewrite decide_True; [done|]. by right.
    + rewrite decide_False; [done|].
      intros [?|?]%elem_of_cons; congruence.
Qed.

Lemma scores_keys_nodup db uid (l : list (obj Movie)) :
  NoDup ((λ kv : obj Movie * Z, kv.1.1) <$> foldl (score_step db uid) [] l).
Proof.
  induction l as [|x l IH] using rev_ind; [constructor|].
  rewrite foldl_app. simpl. unfold score_step at 1.
  repeat case_decide; try done.
  rewrite dict_set_keys. case_decide; [done|].
  apply NoDup_app. split_and!; [done| |apply NoDup_singleton].
  by intros k Hk ->%list_elem_of_singleton.
Qed.

(** X2: no movie is recommended twice, and every recommended movie is a row
    of the movie table. *)
Theorem X2_recommendations_distinct_catalogue_movies (db : DB) (uid : Z) :
  NoDup ((λ kv : obj Movie * Z, kv.1.1) <$> sorted_recommendations db uid)
  ∧ ∀ movie s, (movie, s) ∈ sorted_recommendations db uid →
      movie_table db !! movie.1 = Some movie.2.
Proof.
  split.
  - unfold sorted_recommendations. rewrite sorted_by_perm.
    apply scores_keys_nodup.
  - intros [k v] s (Hc & _)%elem_of_sorted_recommendations.
    by apply candidate_in_table, elem_of_query_all in Hc.
Qed.

(** X3: a recommended score is a positive multiple of 5, at most 15 for
    each genre of the movie. *)
Theorem X3_recommended_score_bounds (db : DB) (uid : Z)
    (movie : obj Movie) (s : Z) :
  (movie, s) ∈ sorted_recommendations db uid →
  5 <= s ∧ s `mod` 5 = 0
  ∧ s <= 15 * Z.of_nat (size (id_set (genres db movie.1))).
Proof.
  intros (_ & _ & -> & Hpos)%elem_of_sorted_recommendations.
  revert Hpos. unfold score_of. rewrite movie_score_formula.
  set (G := id_set (genres db movie.1)).
  set (P := user_pref_genre_ids db uid).
  set (S := seed_movie_genre_ids db uid).
  assert (size (G ∩ P) ≤ size G)%nat by (apply subseteq_size; set_solver).
  assert (size (G ∩ S) ≤ size G)%nat by (apply subseteq_size; set_solver).
  intros Hpos. split_and!; [lia| |lia].
  replace (10 * Z.of_nat (size (G ∩ P)) + 5 * Z.of_nat (size (G ∩ S)))
    with ((2 * Z.of_nat (size (G ∩ P)) + Z.of_nat (size (G ∩ S))) * 5)
    by lia.
  apply Z_mod_mult.
Qed.

Lemma size_inter_add (X G : gset Z) (g : Z) :
  size (G ∩ ({[ g ]} ∪ X))
  = (size (G ∩ X) + if decide (g ∈ G ∧ g ∉ X) then 1 else 0)%nat.
Proof.
  case_decide as Hg.
  - destruct Hg as [HG HX].
    replace (G ∩ ({[ g ]} ∪ X)) with ({[ g ]} ∪ G ∩ X) by set_solver.
    rewrite size_union by set_solver. rewrite size_singleton. lia.
  - replace (G ∩ ({[ g ]} ∪ X)) with (G ∩ X); [lia|].
    apply set_eq. intros x. destruct (decide (x = g)) as [->|]; [|set_solver].
    destruct (decide (g ∈ X)), (decide (g ∈ G)); set_solver.
Qed.

(** X4: adding a genre to the preferred genres raises a movie's score by
    exactly 10 when it is a genre of the movie not preferred before, and
    leaves it as it is otherwise; adding a genre to the genres of the liked
    movies does the same with 5. *)
Theorem X4_score_step_of_one_genre
    (user_pref_genre_ids seed_movie_genre_ids movie_genre_ids : gset Z)
    (g : Z) :
  movie_score ({[ g ]} ∪ user_pref_genre_ids) seed_movie_genre_ids
    movie_genre_ids
  = movie_score user_pref_genre_ids seed_movie_genre_ids movie_genre_ids
    + (if decide (g ∈ movie_genre_ids ∧ g ∉ user_pref_genre_ids)
       then 10 else 0)
  ∧ movie_score user_pref_genre_ids ({[ g ]} ∪ seed_movie_genre_ids)
      movie_genre_ids
    = movie_score user_pref_genre_ids seed_movie_genre_ids movie_genre_ids
      + (if decide (g ∈ movie_genre_ids ∧ g ∉ seed_movie_genre_ids)
         then 5 else 0).
Proof.
  rewrite !movie_score_formula, !size_inter_add.
  split; case_decide; lia.
Qed.

(** The ranking of a user reads the catalogue and that user's three
    collections, nothing else. *)
Lemma sorted_recommendations_ext db db' uid :
  movie_table db' = movie_table db → genre_table db' = genre_table db →
  language_table db' = language_table db →
  movie_genres db' = movie_genres db →
  movie_languages db' = movie_languages db →
  preferred_genres db' uid = preferred_genres db uid →
  preferred_languages db' uid = preferred_languages db uid →
  liked_movies db' uid = liked_movies db uid →
  sorted_recommendations db' uid = sorted_recommendations db uid.
Proof.
  intros Hm Hg Hl Hmg Hml Hpg Hpl Hlm.
  unfold sorted_recommendations, recommendations_scores, candidate_movies,
    movies_in_languages, score_step, score_of, user_pref_genre_ids,
    user_pref_lang_ids, seed_movie_genre_ids, liked_movie_ids, genres,
    languages.
  by rewrite Hpg, Hpl, Hlm, Hm, Hg, Hl, Hmg, Hml.
Qed.

Lemma same_ranking_inputs_ranking db db' uid :
  same_ranking_inputs db db' →
  sorted_recommendations db' uid = sorted_recommendations db uid.
Proof.
  intros (Hm & Hg & Hl & Hug & Hul & Hula & Hmg & Hml).
  apply sorted_recommendations_ext; try done.
  - unfold preferred_genres. by rewrite Hg, Hug.
  - unfold preferred_languages. by rewrite Hl, Hula.
  - unfold liked_movies. by rewrite Hm, Hul.
Qed.

Lemma same_ranking_inputs_refl db : same_ranking_inputs db db.
Proof. by repeat split. Qed.

Lemma movie_detail_same_ranking_inputs (py_int : string → option Z)
    db now sess method form movie_id :
  same_ranking_inputs db
    (res_db (movie_detail py_int db now sess method form movie_id)).
Proof.
  destruct (movie_detail_review_table py_int db now sess method form
              movie_id)
    as [->|(? & ? & ? & _ & _ & ->)]; by repeat split.
Qed.

Lemma edit_review_same_ranking_inputs (integer_affinity : string → PyVal)
    db sess method form review_id :
  same_ranking_inputs db
    (res_db (edit_review integer_affinity db sess method form review_id)).
Proof.
  unfold edit_review, unauthorized. repeat case_match; by repeat split.
Qed.

Lemma toggle_watchlist_same_ranking_inputs db sess movie_id :
  same_ranking_inputs db (res_db (toggle_watchlist db sess movie_id)).
Proof.
  unfold toggle_watchlist, unauthorized. repeat case_match; by repeat split.
Qed.

Lemma register_same_ranking_inputs hash db sess method form salt :
  same_ranking_inputs db (res_db (register hash db sess method form salt)).
Proof. unfold register. repeat case_match; by repeat split. Qed.

(** X5: only a survey submission changes a ranking: after a request on any
    other route of [handle], whoever sends it, every user's ranked list is
    what it was. *)
Theorem X5_only_the_survey_changes_rankings
    (py_int : string → option Z) (integer_affinity : string → PyVal)
    (generate_password_hash : string → string → string)
    (sql_eq_text : Z → string → bool)
    (db : DB) (now : Z) (sess : Session) (req : Request) (uid : Z) :
  (∀ method form, req ≠ req_survey method form) →
  sorted_recommendations
    (res_db (handle py_int integer_affinity generate_password_hash
               sql_eq_text db now sess req)) uid
  = sorted_recommendations db uid.
Proof.
  intros Hreq. apply same_ranking_inputs_ranking.
  destruct req; simpl.
  - apply movie_detail_same_ranking_inputs.
  - apply register_same_ranking_inputs.
  - by destruct (Hreq method form).
  - rewrite recommendations_db. apply same_ranking_inputs_refl.
  - apply toggle_watchlist_same_ranking_inputs.
  - apply edit_review_same_ranking_inputs.
Qed.

(** ** The survey, further *)

Lemma secondary_assign_other {T} (target : gmap Z T) assoc owner
    (old new : list (obj T)) (other : Z) :
  other ≠ owner →
  secondary target (assign_collection assoc owner old new) other
  = secondary target assoc other.
Proof.
  intros Hne. unfold secondary. apply list_filter_iff. intros [k v].
  unfold assign_collection. simpl.
  rewrite elem_of_union, elem_of_difference, !elem_of_list_to_set,
    !list_elem_of_fmap.
  split.
  - intros [[? _]|(x & [= ? _] & _)]; [done|congruence].
  - intros Hin. left. split; [done|].
    intros (x & [= ? _] & _). congruence.
Qed.

(** X6: a survey submission of one user leaves every other user's preferred
    languages, preferred genres, liked movies and ranked list as they were,
    and changes neither the catalogue, nor a review, nor a watchlist, nor
    another user's row. *)
Theorem X6_survey_touches_only_the_submitter
    (sql_eq_text : Z → string → bool)
    (db : DB) (sess : Session) (method : Method) (form : Form)
    (current_user : obj User) (other : Z) :
  load_user db sess = Some current_user → other ≠ current_user.1 →
  let db' := res_db (survey sql_eq_text db sess method form) in
  preferred_languages db' other = preferred_languages db other
  ∧ preferred_genres db' other = preferred_genres db other
  ∧ liked_movies db' other = liked_movies db other
  ∧ sorted_recommendations db' other = sorted_recommendations db other
  ∧ user_table db' !! other = user_table db !! other
  ∧ movie_table db' = movie_table db ∧ genre_table db' = genre_table db
  ∧ language_table db' = language_table db
  ∧ movie_genres db' = movie_genres db
  ∧ movie_languages db' = movie_languages db
  ∧ review_table db' = review_table db
  ∧ user_watchlist db' = user_watchlist db.
Proof.
  intros Huser Hne db'.
  assert (Hpl : preferred_languages db' other = preferred_languages db other).
  { unfold db', survey. rewrite Huser. destruct method; [done|].
    unfold preferred_languages at 1. simpl.
    by apply secondary_assign_other. }
  assert (Hpg : preferred_genres db' other = preferred_genres db other).
  { unfold db', survey. rewrite Huser. destruct method; [done|].
    unfold preferred_genres at 1. simpl.
    by apply secondary_assign_other. }
  assert (Hlm : liked_movies db' other = liked_movies db other).
  { unfold db', survey. rewrite Huser. destruct method; [done|].
    unfold liked_movies at 1. simpl.
    by apply secondary_assign_other. }
  assert (Hrest : user_table db' !! other = user_table db !! other
    ∧ movie_table db' = movie_table db ∧ genre_table db' = genre_table db
    ∧ language_table db' = language_table db
    ∧ movie_genres db' = movie_genres db
    ∧ movie_languages db' = movie_languages db
    ∧ review_table db' = review_table db
    ∧ user_watchlist db' = user_watchlist db).
  { unfold db', survey. rewrite Huser. destruct method; [done|]. simpl.
    split_and!; try done. by rewrite lookup_insert_ne. }
  destruct Hrest as (? & ? & ? & ? & ? & ? & ? & ?).
  split_and!; try done.
  by apply sorted_recommendations_ext.
Qed.

Lemma assign_collection_again {T} (target : gmap Z T) assoc owner
    (new : list (obj T)) :
  (∀ x, x ∈ new → target !! x.1 = Some x.2) →
  let assoc' :=
    assign_collection assoc owner (secondary target assoc owner) new in
  assign_collection assoc' owner (secondary target assoc' owner) new = assoc'.
Proof.
  intros Hnew assoc'. apply set_eq. intros [a b].
  unfold assign_collection at 1.
  rewrite elem_of_union, elem_of_difference, !elem_of_list_to_set,
    !list_elem_of_fmap.
  split.
  - intros [[? _]|(x & [= -> ->] & Hx)]; [done|].
    unfold assoc', assign_collection.
    rewrite elem_of_union, !elem_of_list_to_set, !list_elem_of_fmap.
    right. by exists x.
  - intros Hin.
    destruct (decide ((a, b) ∈ (list_to_set ((λ o : obj T, (owner, o.1))
                                   <$> new) : gset (Z * Z)))) as [Hx|Hx];
      rewrite elem_of_list_to_set, list_elem_of_fmap in Hx.
    + by right.
    + left. split; [done|]. intros (x & Heq & Hx').
      apply Hx. exists x. split; [done|].
      by apply (elem_of_assigned target assoc owner new x Hnew).
Qed.

(** X7: submitting the same survey form twice in a row gives the database
    that submitting it once gives. *)
Theorem X7_survey_idempotent
    (sql_eq_text : Z → string → bool)
    (db : DB) (sess : Session) (form : Form) (current_user : obj User) :
  load_user db sess = Some current_user →
  let db' := res_db (survey sql_eq_text db sess POST form) in
  res_db (survey sql_eq_text db' sess POST form) = db'.
Proof.
  intros Huser db'.
  assert (Huser' : ∃ user', load_user db' sess = Some (current_user.1, user')
                            ∧ user_table db' !! current_user.1 = Some user'
                            ∧ has_completed_survey user' = true
                            ∧ username user' = username current_user.2
                            ∧ password_hash user' = password_hash current_user.2
                            ∧ is_admin user' = is_admin current_user.2
                            ∧ bio user' = bio current_user.2
                            ∧ avatar_path user' = avatar_path current_user.2).
  { pose proof Huser as [Hs Hrow]%load_user_Some.
    unfold db', survey. rewrite Huser. simpl.
    eexists. split; [|split; [apply lookup_insert_eq|by split_and!]].
    apply load_user_Some. simpl. split; [done|apply lookup_insert_eq]. }
  destruct Huser' as ([] & Huser' & Hrow' & Hflag & Hname & Hpw & Hadm
                      & Hbio & Hav).
  simpl in *. subst.
  unfold survey at 1. rewrite Huser'. simpl.
  unfold db', survey. rewrite Huser. simpl.
  f_equal.
  - rewrite insert_insert_eq. done.
  - apply (assign_collection_again (genre_table db)).
    by intros x [? _]%elem_of_query_id_in.
  - apply (assign_collection_again (movie_table db)).
    by intros x [? _]%elem_of_query_id_in.
  - apply (assign_collection_again (language_table db)).
    by intros x [? _]%elem_of_query_id_in.
Qed.

(** ** Review routes, further *)

(** X8: a first submission whose rating [int] refuses ends in [ValueError],
    and one whose rating SQLite cannot hold ends in [OverflowError]; either
    way nothing is stored and nothing flashed. *)
Theorem X8_movie_detail_bad_rating_raises (py_int : string → option Z)
    (db : DB) (now : Z) (sess : Session) (current_user : obj User)
    (movie_id : Z) (form : Form) (rating : string) :
  load_user db sess = Some current_user →
  is_Some (movie_table db !! movie_id) →
  user_review_of db movie_id current_user.1 = None →
  form_get form "rating" = Some rating → rating ≠ EmptyString →
  (py_int rating = None →
   movie_detail py_int db now sess POST form movie_id
   = {| res_db := db; res_flash := []; res_out := Raise ValueError |})
  ∧ (∀ n, py_int rating = Some n → ¬ fits_sqlite_integer n →
     movie_detail py_int db now sess POST form movie_id
     = {| res_db := db; res_flash := []; res_out := Raise OverflowError |}).
Proof.
  intros Huser [row Hrow] Hnone Hrating Hne.
  assert (Hshape : movie_detail py_int db now sess POST form movie_id
    = match py_int rating with
      | None => {| res_db := db; res_flash := []; res_out := Raise ValueError |}
      | Some n =>
          if decide (fits_sqlite_integer n) then
            {| res_db :=
                 with_reviews db
                   (<[next_id (review_table db) :=
                        {| review_rating := PyInt n;
                           review_text := form_get form "review_text";
                           review_timestamp := Some now;
                           review_user_id := Some current_user.1;
                           review_movie_id := Some movie_id |}]>
                      (review_table db));
               res_flash := [("Your review has been submitted!", "success")];
               res_out := Redirect (url_movie_detail movie_id) |}
          else {| res_db := db; res_flash := [];
                  res_out := Raise OverflowError |}
      end).
  { unfold movie_detail. rewrite Huser. unfold query_get at 1.
    rewrite Hrow. simpl. rewrite Hnone, Hrating.
    by destruct rating. }
  rewrite Hshape. split.
  - by intros ->.
  - intros n -> Hfits. by rewrite decide_False.
Qed.

(** X9: an edit of a review that does not exist answers 404 when the id is
    one SQLite can look up and ends in the driver's [OverflowError] when it
    is not, and an edit of a review whose [user_id] is not the current
    user's answers 403, whatever the method and the form; none of them
    changes the database. *)
Theorem X9_edit_review_not_found_or_forbidden
    (integer_affinity : string → PyVal)
    (db : DB) (sess : Session) (current_user : obj User) (method : Method)
    (form : Form) (review_id : Z) :
  load_user db sess = Some current_user →
  (review_table db !! review_id = None → fits_sqlite_integer review_id →
   edit_review integer_affinity db sess method form review_id
   = {| res_db := db; res_flash := []; res_out := Abort 404 |})
  ∧ (review_table db !! review_id = None → ¬ fits_sqlite_integer review_id →
     edit_review integer_affinity db sess method form review_id
     = {| res_db := db; res_flash := []; res_out := Raise OverflowError |})
  ∧ (∀ review, review_table db !! review_id = Some review →
       review_user_id review ≠ Some current_user.1 →
       edit_review integer_affinity db sess method form review_id
       = {| res_db := db; res_flash := []; res_out := Abort 403 |}).
Proof.
  intros Huser. unfold edit_review. rewrite Huser.
  refine (conj _ (conj _ _)).
  - intros Hnone Hfits. unfold query_get at 1. rewrite Hnone. simpl.
    unfold no_row. by rewrite decide_True.
  - intros Hnone Hfits. unfold query_get at 1. rewrite Hnone. simpl.
    unfold no_row. by rewrite decide_False.
  - intros review Hreview Hother. unfold query_get at 1. rewrite Hreview.
    simpl. rewrite decide_False; [done|].
    destruct (review_user_id review) as [u|]; simpl; [|done].
    unfold query_get. destruct (user_table db !! u); simpl; congruence.
Qed.

Lemma edit_review_shape (integer_affinity : string → PyVal)
    db sess method form review_id :
  res_db (edit_review integer_affinity db sess method form review_id) = db
  ∨ ∃ review rating text,
      review_table db !! review_id = Some review
      ∧ res_db (edit_review integer_affinity db sess method form review_id)
        = with_reviews db
            (<[review_id :=
                 {| review_rating := rating; review_text := Some text;
                    review_timestamp := review_timestamp review;
                    review_user_id := review_user_id review;
                    review_movie_id := review_movie_id review |}]>
               (review_table db)).
Proof.
  unfold edit_review, unauthorized.
  destruct (load_user db sess) as [cu|]; [|by left].
  destruct (query_get _ review_id) as [review|] eqn:Hq; [|by left].
  apply query_get_Some in Hq as [Hid Hrow].
  case_decide; [|by left].
  destruct method; [by left|].
  destruct (form_index form "rating") as [|rating]; [by left|].
  destruct (form_index form "review_text") as [|text]; [by left|].
  right. by exists review.2, (integer_affinity rating), text.
Qed.

(** X10: an edit neither adds nor removes a review, changes no review but
    the one edited, keeps that review's user, movie and timestamp, and
    leaves every other table as it was. *)
Theorem X10_edit_review_frame (integer_affinity : string → PyVal)
    (db : DB) (sess : Session) (method : Method) (form : Form)
    (review_id : Z) :
  let db' :=
    res_db (edit_review integer_affinity db sess method form review_id) in
  (∀ id, id ≠ review_id → review_table db' !! id = review_table db !! id)
  ∧ match review_table db' !! review_id, review_table db !! review_id with
    | Some r', Some r =>
        review_user_id r' = review_user_id r
        ∧ review_movie_id r' = review_movie_id r
        ∧ review_timestamp r' = review_timestamp r
    | None, None => True
    | _, _ => False
    end
  ∧ with_reviews db' (review_table db) = db.
Proof.
  intros db'. unfold db'.
  destruct (edit_review_shape integer_affinity db sess method form review_id)
    as [->|(review & rating & text & Hrow & ->)].
  - split_and!; [done| |by destruct db].
    by destruct (review_table db !! review_id).
  - simpl. split_and!.
    + intros id Hne. by rewrite lookup_insert_ne.
    + by rewrite lookup_insert_eq, Hrow.
    + by destruct db.
Qed.

(** X11: of two edits of a review by its author in a row, the later one,
    when its form has both fields, decides the stored review: the database
    is the one the later edit alone gives. *)
Theorem X11_edit_review_last_write_wins (integer_affinity : string → PyVal)
    (db : DB) (sess : Session) (current_user : obj User) (review_id : Z)
    (review : Review) (form1 form2 : Form) (rating text : string) :
  load_user db sess = Some current_user →
  review_table db !! review_id = Some review →
  review_user_id review = Some current_user.1 →
  form_get form2 "rating" = Some rating →
  form_get form2 "review_text" = Some text →
  res_db (edit_review integer_affinity
            (res_db (edit_review integer_affinity db sess POST form1 review_id))
            sess POST form2 review_id)
  = res_db (edit_review integer_affinity db sess POST form2 review_id).
Proof.
  intros Huser Hreview Hauthor Hrating Htext.
  destruct (edit_review_shape integer_affinity db sess POST form1 review_id)
    as [->|(review1 & rating1 & text1 & Hrow & ->)]; [done|].
  assert (review1 = review) as -> by congruence.
  set (db1 := with_reviews db _).
  assert (Huser1 : load_user db1 sess = Some current_user).
  { apply load_user_Some. by apply load_user_Some in Huser. }
  rewrite (edit_review_post integer_affinity db1 sess current_user review_id
             _ Huser1 (lookup_insert_eq _ _ _) Hauthor).
  rewrite (edit_review_post integer_affinity db sess current_user review_id
             _ Huser Hreview Hauthor).
  unfold form_index. rewrite Hrating, Htext. simpl.
  unfold db1, with_reviews. simpl. by rewrite insert_insert_eq.
Qed.

(** ** What requests may change *)

Lemma adds_joined_same {A B : Type} (assoc : gset (Z * Z))
    (left : gmap Z A) (right : gmap Z B) :
  adds_joined assoc assoc left right.
Proof. intros a b ?. by left. Qed.

Lemma users_kept_refl (t : gmap Z User) :
  ∀ id u, t !! id = Some u →
    ∃ u', t !! id = Some u' ∧ username u' = username u
          ∧ password_hash u' = password_hash u ∧ is_admin u' = is_admin u.
Proof. intros id u ?. by exists u. Qed.

Lemma sound_update_refl db : sound_update db db.
Proof.
  split_and!; try done; try apply adds_joined_same.
  - apply users_kept_refl.
  - intros id u' ? ?. congruence.
  - intros id r' ?. left. by exists r'.
Qed.

(** A change of the review table alone. *)
Lemma sound_update_reviews db (t : gmap Z Review) :
  (∀ id r', t !! id = Some r' →
     (∃ r, review_table db !! id = Some r
           ∧ review_user_id r = review_user_id r'
           ∧ review_movie_id r = review_movie_id r')
     ∨ (∃ u m, review_user_id r' = Some u ∧ review_movie_id r' = Some m
               ∧ is_Some (user_table db !! u)
               ∧ is_Some (movie_table db !! m))) →
  sound_update db (with_reviews db t).
Proof.
  intros Ht. split_and!; try done; try apply adds_joined_same.
  - apply users_kept_refl.
  - simpl. intros id u' ? ?. congruence.
Qed.

Lemma movie_detail_sound_update (py_int : string → option Z)
    db now sess method form movie_id :
  sound_update db
    (res_db (movie_detail py_int db now sess method form movie_id)).
Proof.
  unfold movie_detail, unauthorized.
  destruct (load_user db sess) as [cu|] eqn:Huser;
    [|apply sound_update_refl].
  apply load_user_Some in Huser as [_ Hcu].
  destruct (query_get _ movie_id) as [movie|] eqn:Hm;
    [|apply sound_update_refl].
  apply query_get_Some in Hm as [Hid Hrow].
  destruct method; [apply sound_update_refl|].
  destruct (user_review_of _ _ _); [apply sound_update_refl|].
  destruct (form_get form "rating") as [[|c rating]|];
    try apply sound_update_refl.
  destruct (py_int _) as [n|]; [|apply sound_update_refl].
  case_decide; [|apply sound_update_refl].
  apply sound_update_reviews. intros id r'.
  rewrite lookup_insert. case_decide.
  - intros [= <-]. right. exists cu.1, movie.1. simpl.
    rewrite Hid. eauto 10.
  - intros ?. left. by exists r'.
Qed.

Lemma edit_review_sound_update (integer_affinity : string → PyVal)
    db sess method form review_id :
  sound_update db
    (res_db (edit_review integer_affinity db sess method form review_id)).
Proof.
  destruct (edit_review_shape integer_affinity db sess method form review_id)
    as [->|(review & rating & text & Hrow & ->)]; [apply sound_update_refl|].
  apply sound_update_reviews. intros id r'.
  rewrite lookup_insert. case_decide.
  - intros [= <-]. left. subst. by exists review.
  - intros ?. left. by exists r'.
Qed.

Lemma toggle_watchlist_sound_update db sess movie_id :
  sound_update db (res_db (toggle_watchlist db sess movie_id)).
Proof.
  unfold toggle_watchlist, unauthorized.
  destruct (load_user db sess) as [cu|] eqn:Huser;
    [|apply sound_update_refl].
  apply load_user_Some in Huser as [_ Hcu].
  destruct (query_get _ movie_id) as [movie|] eqn:Hm;
    [|apply sound_update_refl].
  apply query_get_Some in Hm as [Hid Hrow].
  assert (Hbase : ∀ w, adds_joined (user_watchlist db) w (user_table db)
                         (movie_table db) →
                       sound_update db (with_watchlist db w)).
  { intros w Hw. split_and!; try done; try apply adds_joined_same.
    - apply users_kept_refl.
    - simpl. intros id u' ? ?. congruence.
    - intros id r' ?. left. by exists r'. }
  case_decide; simpl; apply Hbase; intros a b.
  - rewrite elem_of_difference. intros [? _]. by left.
  - rewrite elem_of_union, elem_of_singleton. intros [?|[= -> ->]]; [by left|].
    right. rewrite Hid in *. eauto.
Qed.

(** A change of the user table alone. *)
Lemma sound_update_users db (t : gmap Z User) :
  (∀ id u, user_table db !! id = Some u →
     ∃ u', t !! id = Some u' ∧ username u' = username u
           ∧ password_hash u' = password_hash u ∧ is_admin u' = is_admin u) →
  (∀ id u', t !! id = Some u' → user_table db !! id = None →
     is_admin u' = false
     ∧ (∀ id0 u0, user_table db !! id0 = Some u0 → username u0 ≠ username u')
     ∧ (∀ id2, is_Some (t !! id2) → user_table db !! id2 = None → id2 = id)) →
  sound_update db (with_users db t).
Proof.
  intros Hkept Hnew. split_and!; try done; try apply adds_joined_same.
  intros id r' ?. left. by exists r'.
Qed.

Lemma user_by_name_None db name :
  user_by_name db name = None →
  ∀ id u, user_table db !! id = Some u → username u ≠ name.
Proof.
  unfold user_by_name. intros Hhead id u Hrow Hname.
  assert (Hin : (id, u) ∈ filter (λ u : obj User, username u.2 = name)
                            (query_all (user_table db))).
  { apply list_elem_of_filter. split; [done|]. by apply elem_of_query_all. }
  destruct (filter _ _); [by apply elem_of_nil in Hin|done].
Qed.

Lemma user_by_name_Some db name (user : obj User) :
  user_by_name db name = Some user →
  user_table db !! user.1 = Some user.2 ∧ username user.2 = name.
Proof.
  unfold user_by_name. intros Hhead.
  assert (Hin : user ∈ filter (λ u : obj User, username u.2 = name)
                         (query_all (user_table db))).
  { destruct (filter _ _) as [|x l]; [done|]. injection Hhead as ->. left. }
  apply list_elem_of_filter in Hin as [? Hin]. destruct user.
  by apply elem_of_query_all in Hin.
Qed.

(** Inserting a user under the next key and a name not in use. *)
Lemma sound_update_new_user db (new_user : User) :
  is_admin new_user = false →
  user_by_name db (username new_user) = None →
  sound_update db
    (with_users db (<[next_id (user_table db) := new_user]> (user_table db))).
Proof.
  intros Hadmin Hname. apply sound_update_users.
  - intros id u Hrow. exists u. split; [|done].
    rewrite lookup_insert_ne; [done|].
    intros <-. by rewrite next_id_fresh in Hrow.
  - intros id u'. rewrite lookup_insert. case_decide as Hid.
    + intros [= <-] _. split_and!; [done| |].
      * by apply user_by_name_None.
      * intros id2 Hsome Hnone. rewrite lookup_insert in Hsome.
        case_decide; [congruence|]. rewrite Hnone in Hsome.
        by destruct Hsome.
    + congruence.
Qed.

(** Replacing the row of an existing user, keeping name, hash and flag. *)
Lemma sound_update_same_user db uid (user user' : User) :
  user_table db !! uid = Some user →
  username user' = username user → password_hash user' = password_hash user →
  is_admin user' = is_admin user →
  ∀ id u, user_table db !! id = Some u →
    ∃ u', <[uid := user']> (user_table db) !! id = Some u'
          ∧ username u' = username u ∧ password_hash u' = password_hash u
          ∧ is_admin u' = is_admin u.
Proof.
  intros Hrow Hn Hp Ha id u Hid. rewrite lookup_insert. case_decide.
  - subst. exists user'. split; [done|]. by simplify_eq.
  - by exists u.
Qed.

Lemma insert_existing_no_new (t : gmap Z User) uid (user' : User) :
  is_Some (t !! uid) →
  ∀ id u', <[uid := user']> t !! id = Some u' → t !! id = None → False.
Proof.
  intros [u Hrow] id u'. rewrite lookup_insert. case_decide; congruence.
Qed.

Lemma register_sound_update hash db sess method form salt :
  sound_update db (res_db (register hash db sess method form salt)).
Proof.
  unfold register.
  destruct (load_user db sess); [apply sound_update_refl|].
  destruct method; [apply sound_update_refl|].
  destruct (form_index form "username") as [|name];
    [apply sound_update_refl|].
  destruct (form_index form "password") as [|password];
    [apply sound_update_refl|].
  destruct (user_by_name db name) eqn:Hname; [apply sound_update_refl|].
  by apply sound_update_new_user.
Qed.

Lemma adds_joined_assign {T} (target : gmap Z T) (users : gmap Z User)
    assoc owner (old new : list (obj T)) :
  is_Some (users !! owner) →
  (∀ x, x ∈ new → target !! x.1 = Some x.2) →
  adds_joined assoc (assign_collection assoc owner old new) users target.
Proof.
  intros Howner Hnew a b. unfold assign_collection.
  rewrite elem_of_union, elem_of_difference, !elem_of_list_to_set,
    !list_elem_of_fmap.
  intros [[? _]|(x & [= -> ->] & Hx)]; [by left|].
  right. split; [done|]. rewrite (Hnew x Hx). eauto.
Qed.

Lemma survey_sound_update sql_eq_text db sess method form :
  sound_update db (res_db (survey sql_eq_text db sess method form)).
Proof.
  unfold survey, unauthorized.
  destruct (load_user db sess) as [cu|] eqn:Huser;
    [|apply sound_update_refl].
  apply load_user_Some in Huser as [_ Hcu].
  destruct method; [apply sound_update_refl|].
  assert (Hq : ∀ T (t : gmap Z T) ids x,
               x ∈ query_id_in sql_eq_text t ids → t !! x.1 = Some x.2).
  { by intros T t ids x [? _]%elem_of_query_id_in. }
  split_and!; simpl; try done.
  - by apply (sound_update_same_user db cu.1 cu.2).
  - intros id u' Hrow Hnone. exfalso.
    by eapply (insert_existing_no_new (user_table db) cu.1).
  - intros id r' ?. left. by exists r'.
  - apply adds_joined_assign; eauto.
  - apply adds_joined_assign; eauto.
  - apply adds_joined_assign; eauto.
  - apply adds_joined_same.
Qed.

Lemma edit_profile_sound_update secure_filename splitext_ext base db sess
    method form files uuid_hex :
  sound_update db
    (rep_db (edit_profile secure_filename splitext_ext base db sess method
               form files uuid_hex)).
Proof.
  unfold edit_profile, login_redirect, reply.
  destruct (load_user db sess) as [cu|] eqn:Huser;
    [|apply sound_update_refl].
  apply load_user_Some in Huser as [_ Hcu].
  destruct method; [apply sound_update_refl|]. simpl.
  apply sound_update_users.
  - by apply (sound_update_same_user db cu.1 cu.2).
  - intros id u' Hrow Hnone. exfalso.
    by eapply (insert_existing_no_new (user_table db) cu.1).
Qed.

Lemma web_step_sound_update secure_filename splitext_ext base py_int
    integer_affinity hash sql_eq_text db db' :
  web_step secure_filename splitext_ext base py_int integer_affinity hash
    sql_eq_text db db' →
  sound_update db db'.
Proof.
  intros [now sess req|sess method form files uuid_hex].
  - destruct req; simpl.
    + apply movie_detail_sound_update.
    + apply register_sound_update.
    + apply survey_sound_update.
    + rewrite recommendations_db. apply sound_update_refl.
    + apply toggle_watchlist_sound_update.
    + apply edit_review_sound_update.
  - apply edit_profile_sound_update.
Qed.

(** X12: a request, on any route that writes, leaves the catalogue (movies,
    genres, languages and their links) as it was, keeps every user with
    name, password hash and administrator flag, and opens the administrator
    panel to no session it was closed to. *)
Theorem X12_requests_keep_catalogue_and_accounts
    (py_int : string → option Z) (integer_affinity : string → PyVal)
    (secure_filename splitext_ext : string → string) (BASE_DIR : string)
    (generate_password_hash : string → string → string)
    (sql_eq_text : Z → string → bool) (db db' : DB) :
  web_step secure_filename splitext_ext BASE_DIR py_int integer_affinity
    generate_password_hash sql_eq_text db db' →
  (movie_table db' = movie_table db ∧ genre_table db' = genre_table db
   ∧ language_table db' = language_table db
   ∧ movie_genres db' = movie_genres db
   ∧ movie_languages db' = movie_languages db)
  ∧ (∀ id u, user_table db !! id = Some u →
       ∃ u', user_table db' !! id = Some u' ∧ username u' = username u
             ∧ password_hash u' = password_hash u
             ∧ is_admin u' = is_admin u)
  ∧ (∀ sess, is_accessible db' sess = true → is_accessible db sess = true).
Proof.
  intros ((? & ? & ? & ? & ?) & Hkept & Hnew & _)%web_step_sound_update.
  split_and!; [done..|].
  intros sess. unfold is_accessible.
  destruct (load_user db' sess) as [cu'|] eqn:Huser'; [|done].
  apply load_user_Some in Huser' as [-> Hrow']. intros Hadmin.
  destruct (user_table db !! cu'.1) as [u|] eqn:Hrow.
  - destruct (Hkept _ _ Hrow) as (u' & Hu' & _ & _ & Ha).
    assert (u' = cu'.2) as -> by congruence.
    unfold load_user. simpl. unfold query_get. rewrite Hrow. simpl.
    congruence.
  - destruct (Hnew _ _ Hrow' Hrow) as (? & _). congruence.
Qed.

(** ** Invariants of the reachable databases *)

Lemma unique_usernames_update (t t' : gmap Z User) :
  (∀ id u', t' !! id = Some u' →
     (∃ u, t !! id = Some u ∧ username u = username u')
     ∨ (t !! id = None
        ∧ (∀ id0 u0, t !! id0 = Some u0 → username u0 ≠ username u')
        ∧ (∀ id2, is_Some (t' !! id2) → t !! id2 = None → id2 = id))) →
  (∀ id1 id2 u1 u2, t !! id1 = Some u1 → t !! id2 = Some u2 →
     username u1 = username u2 → id1 = id2) →
  ∀ id1 id2 u1 u2, t' !! id1 = Some u1 → t' !! id2 = Some u2 →
    username u1 = username u2 → id1 = id2.
Proof.
  intros Hupd Huniq id1 id2 u1 u2 H1 H2 Hname.
  destruct (Hupd _ _ H1) as [(o1 & Ho1 & Hn1)|(Hnone1 & Hfresh1 & Hone1)],
           (Hupd _ _ H2) as [(o2 & Ho2 & Hn2)|(Hnone2 & Hfresh2 & Hone2)].
  - apply (Huniq id1 id2 o1 o2); congruence.
  - destruct (Hfresh2 _ _ Ho1). congruence.
  - destruct (Hfresh1 _ _ Ho2). congruence.
  - apply Hone2; eauto.
Qed.

Lemma sound_update_unique_usernames db db' :
  sound_update db db' → unique_usernames db → unique_usernames db'.
Proof.
  intros (_ & Hkept & Hnew & _) Huniq.
  refine (unique_usernames_update (user_table db) (user_table db') _ Huniq).
  intros id u' Hrow'.
  destruct (user_table db !! id) as [u|] eqn:Hrow.
  - left. exists u. split; [done|].
    destruct (Hkept _ _ Hrow) as (u'' & ? & ? & _). congruence.
  - right. split; [done|]. by destruct (Hnew _ _ Hrow' Hrow) as (_ & ? & ?).
Qed.

Lemma create_admin_unique_usernames hash db name password salt :
  unique_usernames db →
  unique_usernames (create_admin_command hash db name password salt).
Proof.
  intros Huniq. unfold create_admin_command.
  destruct (user_by_name db name) as [user|] eqn:Hname;
    refine (unique_usernames_update (user_table db) _ _ Huniq);
    intros id u'; simpl; rewrite lookup_insert;
    case_decide as Hid; intros Hrow; simplify_eq.
  - apply user_by_name_Some in Hname as [Hrow _].
    left. by exists user.2.
  - left. by exists u'.
  - right. split; [apply next_id_fresh|]. split.
    + by apply user_by_name_None.
    + intros id2 Hsome Hnone. rewrite lookup_insert in Hsome.
      case_decide; [congruence|]. rewrite Hnone in Hsome. by destruct Hsome.
  - left. by exists u'.
Qed.

(** X13: in every database reached from the empty schema by requests and
    maintenance commands, no two users have the same name. *)
Theorem X13_usernames_stay_unique
    (py_int : string → option Z) (integer_affinity : string → PyVal)
    (secure_filename splitext_ext : string → string) (BASE_DIR : string)
    (generate_password_hash : string → string → string)
    (sql_eq_text : Z → string → bool) (db : DB) :
  reachable_app secure_filename splitext_ext BASE_DIR py_int
    integer_affinity generate_password_hash sql_eq_text db →
  unique_usernames db.
Proof.
  induction 1 as [|db db' _ IH Hstep|db db' _ IH Hstep].
  - intros id1 id2 u1 u2 H1. simpl in H1. by rewrite lookup_empty in H1.
  - eapply sound_update_unique_usernames; [|exact IH].
    by eapply web_step_sound_update.
  - destruct Hstep as [|name password salt].
    + intros id1 id2 u1 u2 H1. simpl in H1. by rewrite lookup_empty in H1.
    + by apply create_admin_unique_usernames.
Qed.

Lemma joins_grow {A B : Type} (assoc assoc' : gset (Z * Z))
    (left left' : gmap Z A) (right : gmap Z B) :
  (∀ a, is_Some (left !! a) → is_Some (left' !! a)) →
  adds_joined assoc assoc' left right →
  joins assoc left right → joins assoc' left' right.
Proof.
  intros Hleft Hadd Hjoin a b [Hin|[? ?]]%Hadd; [|eauto].
  destruct (Hjoin a b Hin). eauto.
Qed.

Lemma sound_update_references db db' :
  sound_update db db' → references_resolve db → references_resolve db'.
Proof.
  intros ((Hm & Hg & Hl & Hmg & Hml) & Hkept & _ & Hrev & Hug & Hul & Hula
          & Hw) (Rrev & Rug & Rul & Rula & Rmg & Rml & Rw).
  assert (Husers : ∀ a, is_Some (user_table db !! a) →
                        is_Some (user_table db' !! a)).
  { intros a [u Hu]. destruct (Hkept _ _ Hu) as (u' & ? & _). eauto. }
  unfold references_resolve. rewrite Hm, Hg, Hl, Hmg, Hml.
  split_and!; try done; try by eapply joins_grow.
  - intros id r' [(r & Hr & Hu & Hmv)|(u & m & ? & ? & ? & ?)]%Hrev.
    + destruct (Rrev _ _ Hr) as [(u & ? & ?) (m & ? & ?)].
      split; [exists u|exists m]; split; try congruence; eauto.
    + split; [exists u|exists m]; eauto.
Qed.

Lemma seed_db_references : references_resolve seed_db.
Proof.
  assert (Hempty : ∀ A B (l : gmap Z A) (r : gmap Z B), joins ∅ l r).
  { intros A B l r a b Hin. by apply elem_of_empty in Hin. }
  split_and!; try apply Hempty.
  - intros id r H1. simpl in H1. by rewrite lookup_empty in H1.
  - intros a b Hin. simpl in Hin.
    repeat (apply elem_of_union in Hin as [Hin|Hin];
            [apply elem_of_singleton in Hin; injection Hin as -> ->;
             split; by eexists|]).
    by apply elem_of_empty in Hin.
  - intros a b Hin. simpl in Hin.
    repeat (apply elem_of_union in Hin as [Hin|Hin];
            [apply elem_of_singleton in Hin; injection Hin as -> ->;
             split; by eexists|]).
    by apply elem_of_empty in Hin.
Qed.

Lemma references_resolve_users_grow db (t : gmap Z User) :
  (∀ a, is_Some (user_table db !! a) → is_Some (t !! a)) →
  references_resolve db → references_resolve (with_users db t).
Proof.
  intros Husers (Rrev & Rug & Rul & Rula & Rmg & Rml & Rw).
  split_and!; simpl; try done;
    try (eapply joins_grow; [exact Husers|apply adds_joined_same|done]).
  intros id r Hr. destruct (Rrev _ _ Hr) as [(u & ? & ?) ?].
  split; [|done]. exists u. eauto.
Qed.

Lemma create_admin_references hash db name password salt :
  references_resolve db →
  references_resolve (create_admin_command hash db name password salt).
Proof.
  unfold create_admin_command.
  destruct (user_by_name db name); apply references_resolve_users_grow;
    intros a Ha; rewrite lookup_insert; case_decide; eauto.
Qed.

(** X14: in every database reached from the empty schema by requests and
    maintenance commands, each review belongs to an existing user and an
    existing movie, and each row of the six association tables joins two
    existing rows. *)
Theorem X14_foreign_keys_stay_valid
    (py_int : string → option Z) (integer_affinity : string → PyVal)
    (secure_filename splitext_ext : string → string) (BASE_DIR : string)
    (generate_password_hash : string → string → string)
    (sql_eq_text : Z → string → bool) (db : DB) :
  reachable_app secure_filename splitext_ext BASE_DIR py_int
    integer_affinity generate_password_hash sql_eq_text db →
  references_resolve db.
Proof.
  induction 1 as [|db db' _ IH Hstep|db db' _ IH Hstep].
  - split_and!; try (intros a b Hin; by apply elem_of_empty in Hin).
    intros id r H1. simpl in H1. by rewrite lookup_empty in H1.
  - eapply sound_update_references; [|exact IH].
    by eapply web_step_sound_update.
  - destruct Hstep as [|name password salt].
    + apply seed_db_references.
    + by apply create_admin_references.
Qed.

(** ** Accounts *)

Lemma user_by_name_insert db (new_user : User) :
  user_by_name db (username new_user) = None →
  user_by_name
    (with_users db (<[next_id (user_table db) := new_user]> (user_table db)))
    (username new_user)
  = Some (next_id (user_table db), new_user).
Proof.
  intros Hnone. unfold user_by_name in *. simpl.
  assert (Hnil : filter (λ u : obj User, username u.2 = username new_user)
                   (query_all (user_table db)) = [])
    by by destruct (filter _ _).
  assert (Hone : filter (λ u : obj User, username u.2 = username new_user)
                   (query_all (<[next_id (user_table db) := new_user]>
                                 (user_table db)))
                 = [(next_id (user_table db), new_user)]).
  { apply Permutation_singleton_r.
    rewrite (query_all_insert _ _ _ (next_id_fresh _)).
    rewrite filter_cons_True by done. by rewrite Hnil. }
  by rewrite Hone.
Qed.

(** A registration by an anonymous visitor under a name not in use. *)
Lemma register_new_user hash db sess form salt name password :
  load_user db sess = None →
  form_get form "username" = Some name →
  form_get form "password" = Some password →
  user_by_name db name = None →
  register hash db sess POST form salt
  = {| res_db :=
         with_users db
           (<[next_id (user_table db) :=
                {| username := name; password_hash := hash password salt;
                   has_completed_survey := false; is_admin := false;
                   bio := None; avatar_path := "default.jpg" |}]>
              (user_table db));
       res_flash :=
         [("Account created! Please complete the survey to get started.",
           "success")];
       res_out := Redirect url_survey |}.
Proof.
  intros Hanon Hname Hpw Hfree. unfold register, form_index.
  by rewrite Hanon, Hname, Hpw, Hfree.
Qed.

(** X15: a registration by an anonymous visitor under a name not in use is
    found again by that name, with the survey and administrator flags unset
    and the default avatar; every user there before is still there,
    unchanged, and no other table changes. *)
Theorem X15_register_then_find
    (generate_password_hash : string → string → string)
    (db : DB) (sess : Session) (form : Form) (salt name password : string) :
  load_user db sess = None →
  form_get form "username" = Some name →
  form_get form "password" = Some password →
  user_by_name db name = None →
  let registered :=
    register generate_password_hash db sess POST form salt in
  res_out registered = Redirect url_survey
  ∧ user_by_name (res_db registered) name
    = Some (next_id (user_table db),
            {| username := name;
               password_hash := generate_password_hash password salt;
               has_completed_survey := false; is_admin := false;
               bio := None; avatar_path := "default.jpg" |})
  ∧ (∀ id u, user_table db !! id = Some u →
       user_table (res_db registered) !! id = Some u)
  ∧ with_users (res_db registered) (user_table db) = db.
Proof.
  intros Hanon Hname Hpw Hfree registered. unfold registered.
  rewrite (register_new_user _ _ _ _ _ _ _ Hanon Hname Hpw Hfree). simpl.
  split_and!; [done| | |by destruct db].
  - by apply (user_by_name_insert db
                {| username := name;
                   password_hash := generate_password_hash password salt;
                   has_completed_survey := false; is_admin := false;
                   bio := None; avatar_path := "default.jpg" |}).
  - intros id u Hrow. rewrite lookup_insert_ne; [done|].
    intros <-. by rewrite next_id_fresh in Hrow.
Qed.

(** X16: after such a registration, a login without session under the same
    name and password, when [check_password_hash] accepts the password for
    the hash stored, puts the new user's id into the session and redirects
    to the survey. *)
Theorem X16_register_then_login
    (check_password_hash : string → string → bool)
    (generate_password_hash : string → string → string)
    (db : DB) (sess : Session) (form : Form) (salt name password : string) :
  check_password_hash (generate_password_hash password salt) password
  = true →
  load_user db sess = None →
  form_get form "username" = Some name →
  form_get form "password" = Some password →
  user_by_name db name = None →
  let db' :=
    res_db (register generate_password_hash db sess POST form salt) in
  login check_password_hash db' None POST form
  = reply db' (Some (next_id (user_table db)))
      [("Welcome! Please complete the survey to get recommendations.",
        "info")]
      (redirect (to_endpoint url_survey)).
Proof.
  intros Hcheck Hanon Hname Hpw Hfree db'.
  assert (Hfind := user_by_name_insert db
            {| username := name;
               password_hash := generate_password_hash password salt;
               has_completed_survey := false; is_admin := false;
               bio := None; avatar_path := "default.jpg" |} Hfree).
  unfold db'.
  rewrite (register_new_user _ _ _ _ _ _ _ Hanon Hname Hpw Hfree). simpl.
  unfold login, form_index. simpl. simpl in Hfind.
  rewrite Hname, Hpw, Hfind. simpl. by rewrite Hcheck.
Qed.

(** X17: a login without session ends with a user id in the session only
    for a user of the table who has the name of the form and whose stored
    hash [check_password_hash] accepts for the password of the form. *)
Theorem X17_login_only_with_matching_hash
    (check_password_hash : string → string → bool)
    (db : DB) (method : Method) (form : Form) (uid : Z) :
  rep_session (login check_password_hash db None method form) = Some uid →
  ∃ user name password,
    form_get form "username" = Some name
    ∧ form_get form "password" = Some password
    ∧ user_table db !! uid = Some user ∧ username user = name
    ∧ check_password_hash (password_hash user) password = true.
Proof.
  unfold login, form_index. simpl.
  destruct method; [done|].
  destruct (form_get form "username") as [name|]; [|done].
  destruct (form_get form "password") as [password|]; [|done].
  destruct (user_by_name db name) as [user|] eqn:Hfind; [|done].
  apply user_by_name_Some in Hfind as [Hrow Hn].
  destruct (check_password_hash _ _) eqn:Hcheck; [|done].
  destruct (has_completed_survey _); simpl; intros [= <-];
    exists user.2, name, password; by split_and!.
Qed.

(** X18: [create-admin] on a name in use sets the administrator flag of the
    first user of that name and keeps that user's password hash, ignoring
    the password typed; on a name not in use it adds an administrator with
    the survey flag set; every other user is left as is. *)
Theorem X18_create_admin_promotes_or_creates
    (generate_password_hash : string → string → string)
    (db : DB) (name password salt : string) :
  let db' :=
    create_admin_command generate_password_hash db name password salt in
  (∀ user, user_by_name db name = Some user →
     user_table db' !! user.1
     = Some {| username := username user.2;
               password_hash := password_hash user.2;
               has_completed_survey := has_completed_survey user.2;
               is_admin := true; bio := bio user.2;
               avatar_path := avatar_path user.2 |}
     ∧ ∀ id, id ≠ user.1 → user_table db' !! id = user_table db !! id)
  ∧ (user_by_name db name = None →
     user_by_name db' name
     = Some (next_id (user_table db),
             {| username := name;
                password_hash := generate_password_hash password salt;
                has_completed_survey := true; is_admin := true;
                bio := None; avatar_path := "default.jpg" |})
     ∧ ∀ id u, user_table db !! id = Some u → user_table db' !! id = Some u).
Proof.
  intros db'. unfold db', create_admin_command. split.
  - intros user ->. simpl. split; [apply lookup_insert_eq|].
    intros id Hne. by rewrite lookup_insert_ne.
  - intros Hfree. rewrite Hfree. split.
    + by apply (user_by_name_insert db
                  {| username := name;
                     password_hash := generate_password_hash password salt;
                     has_completed_survey := true; is_admin := true;
                     bio := None; avatar_path := "default.jpg" |}).
    + intros id u Hrow. simpl. rewrite lookup_insert_ne; [done|].
      intros <-. by rewrite next_id_fresh in Hrow.
Qed.

(** X19: without a logged-in user every route but the index, the login and
    the registration flashes the login notice and redirects to the login
    page; nothing is stored, no file written, and the session stays. *)
Theorem X19_anonymous_requests_are_sent_to_login
    (py_int : string → option Z) (integer_affinity : string → PyVal)
    (secure_filename splitext_ext : string → string) (BASE_DIR : string)
    (generate_password_hash : string → string → string)
    (sql_eq_text : Z → string → bool)
    (db : DB) (now : Z) (sess : Session) :
  load_user db sess = None →
  (∀ req, (∀ method form salt, req ≠ req_register method form salt) →
     handle py_int integer_affinity generate_password_hash sql_eq_text db
       now sess req
     = unauthorized db)
  ∧ dashboard db sess = login_redirect db sess
  ∧ (∀ name, genres_by_language db sess name = login_redirect db sess)
  ∧ (∀ name genre_id,
       movies_by_genre_and_lang db sess name genre_id
       = login_redirect db sess)
  ∧ logout db sess = login_redirect db sess
  ∧ watchlist_page db sess = login_redirect db sess
  ∧ (∀ name, profile db sess name = login_redirect db sess)
  ∧ (∀ method form files uuid_hex,
       edit_profile secure_filename splitext_ext BASE_DIR db sess method
         form files uuid_hex
       = login_redirect db sess).
Proof.
  intros Hanon. split_and!.
  - intros [] Hreq; simpl.
    + unfold movie_detail. by rewrite Hanon.
    + by destruct (Hreq method form salt).
    + unfold survey. by rewrite Hanon.
    + unfold recommendations. by rewrite Hanon.
    + unfold toggle_watchlist. by rewrite Hanon.
    + unfold edit_review. by rewrite Hanon.
  - unfold dashboard. by rewrite Hanon.
  - intros name. unfold genres_by_language. by rewrite Hanon.
  - intros name genre_id. unfold movies_by_genre_and_lang. by rewrite Hanon.
  - unfold logout. by rewrite Hanon.
  - unfold watchlist_page. by rewrite Hanon.
  - intros name. unfold profile. by rewrite Hanon.
  - intros method form files uuid_hex. unfold edit_profile.
    by rewrite Hanon.
Qed.

(** ** Browsing *)

Lemma filter_nonempty_Exists {A} (P : A → Prop) `{∀ x, Decision (P x)}
    (l : list A) :
  filter P l ≠ [] ↔ Exists P l.
Proof.
  induction l as [|x l IH].
  - split; [done|]. by intros ?%Exists_nil.
  - rewrite Exists_cons. destruct (decide (P x)).
    + rewrite filter_cons_True by done. naive_solver.
    + rewrite filter_cons_False by done. naive_solver.
Qed.

Lemma query_all_NoDup {T} (t : gmap Z T) : NoDup (query_all t).
Proof. unfold query_all. rewrite sorted_by_perm. apply NoDup_map_to_list. Qed.

Lemma language_by_name_Some db name (language : obj Language) :
  language_table db !! language.1 = Some language.2 →
  language_name language.2 = name →
  is_Some (language_by_name db name).
Proof.
  intros Hrow Hname. unfold language_by_name.
  assert (Hin : language ∈ filter (λ l : obj Language,
                                     language_name l.2 = name)
                             (query_all (language_table db))).
  { apply list_elem_of_filter. split; [done|].
    destruct language. by apply elem_of_query_all. }
  destruct (filter _ _); [by apply elem_of_nil in Hin|by eexists].
Qed.

(** X20: for a logged-in user the genre page of a language lists each genre
    once, and lists a genre exactly when it is a row of the genre table
    whose movie page for that language shows at least one movie. *)
Theorem X20_listed_genres_have_movies
    (db : DB) (sess : Session) (current_user : obj User) (name : string)
    (language : obj Language) :
  load_user db sess = Some current_user →
  language_by_name db name = Some language →
  ∃ listed,
    rep_out (genres_by_language db sess name)
    = render_template (genres_by_language_html listed language)
    ∧ NoDup listed
    ∧ ∀ g : obj Genre,
        g ∈ listed
        ↔ genre_table db !! g.1 = Some g.2
          ∧ ∃ movies,
              rep_out (movies_by_genre_and_lang db sess name g.1)
              = render_template (genre_movies_html movies g language)
              ∧ movies ≠ [].
Proof.
  intros Huser Hlang. exists (genres_in_language db language.1).
  unfold genres_by_language, movies_by_genre_and_lang.
  rewrite Huser, Hlang. simpl. split; [done|]. split.
  - unfold genres_in_language, order_by_name. rewrite sorted_by_perm.
    apply NoDup_filter, query_all_NoDup.
  - intros [k v]. unfold genres_in_language, order_by_name.
    rewrite elem_of_sorted_by, list_elem_of_filter, elem_of_query_all.
    simpl. split.
    + intros [Hex Hrow]. split; [done|].
      unfold query_get. rewrite Hrow. simpl.
      eexists. split; [done|]. by apply filter_nonempty_Exists.
    + intros (Hrow & movies & Hout & Hne). split; [|done].
      unfold query_get in Hout. rewrite Hrow in Hout. simpl in Hout.
      injection Hout as <-.
      by apply filter_nonempty_Exists in Hne.
Qed.

(** X21: for a logged-in user the dashboard lists every language of the
    table once, and the name of each listed language opens a genre page,
    not a 404; a name no language has gives 404. *)
Theorem X21_dashboard_languages_open_genre_pages
    (db : DB) (sess : Session) (current_user : obj User) :
  load_user db sess = Some current_user →
  (∃ listed,
     rep_out (dashboard db sess) = render_template (dashboard_html listed)
     ∧ listed ≡ₚ map_to_list (language_table db)
     ∧ ∀ l : obj Language, l ∈ listed →
         ∃ genres language,
           rep_out (genres_by_language db sess (language_name l.2))
           = render_template (genres_by_language_html genres language)
           ∧ language_name language.2 = language_name l.2)
  ∧ (∀ name,
       (∀ id l, language_table db !! id = Some l → language_name l ≠ name) →
       rep_out (genres_by_language db sess name) = abort 404).
Proof.
  intros Huser. split.
  - exists (order_by_name language_name (query_all (language_table db))).
    unfold dashboard. rewrite Huser. simpl. split; [done|]. split.
    + unfold order_by_name, query_all. by rewrite !sorted_by_perm.
    + intros [k v]. unfold order_by_name.
      rewrite elem_of_sorted_by, elem_of_query_all. intros Hrow.
      destruct (language_by_name_Some db (language_name v) (k, v) Hrow
                  eq_refl) as [language Hfound].
      unfold genres_by_language. rewrite Huser. simpl. rewrite Hfound. simpl.
      exists (genres_in_language db language.1), language. split; [done|].
      unfold language_by_name in Hfound.
      assert (Hin : language ∈ filter (λ l : obj Language,
                                         language_name l.2 = language_name v)
                                 (query_all (language_table db))).
      { destruct (filter _ _) as [|x l]; [done|].
        injection Hfound as ->. left. }
      by apply list_elem_of_filter in Hin as [? _].
  - intros name Hnone. unfold genres_by_language. rewrite Huser.
    destruct (language_by_name db name) as [language|] eqn:Hfound; [|done].
    exfalso. unfold language_by_name in Hfound.
    assert (Hin : language ∈ filter (λ l : obj Language,
                                       language_name l.2 = name)
                               (query_all (language_table db))).
    { destruct (filter _ _) as [|x l]; [done|].
      injection Hfound as ->. left. }
    apply list_elem_of_filter in Hin as [Hname Hin]. destruct language.
    apply elem_of_query_all in Hin. by eapply Hnone.
Qed.

(** ** Profiles *)

Lemma timestamp_lt_asym (a b : option Z) :
  timestamp_lt a b = true → timestamp_lt b a = false.
Proof.
  destruct a, b; simpl; try done.
  rewrite bool_decide_eq_true, bool_decide_eq_false. lia.
Qed.

Lemma timestamp_ge_trans (a b c : option Z) :
  timestamp_lt a b = false → timestamp_lt b c = false →
  timestamp_lt a c = false.
Proof.
  destruct a, b, c; simpl; try done.
  rewrite !bool_decide_eq_false. lia.
Qed.

Lemma order_by_timestamp_desc_sorted (q : list (obj Review)) :
  StronglySorted
    (λ a b, timestamp_lt (review_timestamp a.2) (review_timestamp b.2)
            = false)
    (order_by_timestamp_desc q).
Proof.
  unfold order_by_timestamp_desc, sorted_by.
  induction q as [|x q IH]; [constructor|]. simpl.
  revert IH. generalize (foldr (sorted_insert (λ y x0 : obj Review,
    timestamp_lt (review_timestamp x0.2) (review_timestamp y.2))) [] q).
  intros l. induction 1 as [|y l Hl IH Hy]; simpl.
  - repeat constructor.
  - destruct (timestamp_lt _ _) eqn:Hlt.
    + constructor; [done|]. rewrite sorted_insert_perm.
      constructor; [by apply timestamp_lt_asym|done].
    + constructor; [by constructor|]. constructor; [done|].
      eapply Forall_impl; [exact Hy|]. simpl. intros z Hz.
      by eapply timestamp_ge_trans.
Qed.

(** X22: for a logged-in visitor the profile of a name no user has answers
    404; otherwise it shows the first user of that name with exactly the
    reviews whose [user_id] is that user's, none of them ahead of a newer
    one. *)
Theorem X22_profile_lists_the_users_reviews
    (db : DB) (sess : Session) (current_user : obj User) (name : string) :
  load_user db sess = Some current_user →
  (user_by_name db name = None → rep_out (profile db sess name) = abort 404)
  ∧ (∀ user, user_by_name db name = Some user →
       ∃ reviews,
         rep_out (profile db sess name)
         = render_template (profile_html user reviews)
         ∧ (∀ r : obj Review,
              r ∈ reviews
              ↔ review_table db !! r.1 = Some r.2
                ∧ review_user_id r.2 = Some user.1)
         ∧ StronglySorted
             (λ a b, timestamp_lt (review_timestamp a.2)
                       (review_timestamp b.2) = false)
             reviews).
Proof.
  intros Huser. unfold profile. rewrite Huser. split.
  - by intros ->.
  - intros user ->. simpl.
    exists (order_by_timestamp_desc (user_reviews db user.1)).
    split; [done|]. split; [|apply order_by_timestamp_desc_sorted].
    intros [k v]. unfold order_by_timestamp_desc, user_reviews.
    rewrite elem_of_sorted_by, list_elem_of_filter, elem_of_query_all.
    simpl. tauto.
Qed.

Lemma user_by_name_unique db uid (user : User) :
  unique_usernames db → user_table db !! uid = Some user →
  user_by_name db (username user) = Some (uid, user).
Proof.
  intros Huniq Hrow.
  destruct (user_by_name db (username user)) as [[k v]|] eqn:Hfound.
  - apply user_by_name_Some in Hfound as [Hk Hn]. simpl in *.
    assert (k = uid) as -> by by eapply Huniq.
    congruence.
  - by destruct (user_by_name_None _ _ Hfound uid user).
Qed.

(** X23: with user names unique, a first review of a movie whose rating
    field is not empty, is one [int] accepts and gives an integer SQLite
    can hold is on the profile page of its author afterwards, with that
    integer as rating and the submitted text. *)
Theorem X23_submitted_review_is_on_the_profile (py_int : string → option Z)
    (db : DB) (now : Z) (sess : Session) (current_user : obj User)
    (movie_id : Z) (form : Form) (rating : string) (n : Z) :
  unique_usernames db →
  load_user db sess = Some current_user →
  is_Some (movie_table db !! movie_id) →
  user_review_of db movie_id current_user.1 = None →
  form_get form "rating" = Some rating → rating ≠ EmptyString →
  py_int rating = Some n → fits_sqlite_integer n →
  let db' := res_db (movie_detail py_int db now sess POST form movie_id) in
  ∃ reviews id review,
    rep_out (profile db' sess (username current_user.2))
    = render_template (profile_html current_user reviews)
    ∧ (id, review) ∈ reviews
    ∧ review_rating review = PyInt n
    ∧ review_text review = form_get form "review_text"
    ∧ review_movie_id review = Some movie_id.
Proof.
  intros Huniq Huser Hmovie Hnone Hrating Hne Hint Hfits db'.
  assert (Hnone' := proj1 (user_review_None _ _ _) Hnone).
  unfold db'.
  rewrite (movie_detail_created py_int db sess current_user movie_id Huser
             Hmovie now form rating n Hnone' Hrating Hne Hint Hfits). simpl.
  set (new_review := {| review_rating := PyInt n |}).
  set (db1 := with_reviews db _).
  assert (Huser1 : load_user db1 sess = Some current_user).
  { apply load_user_Some. by apply load_user_Some in Huser. }
  assert (Hfound : user_by_name db1 (username current_user.2)
                   = Some current_user).
  { pose proof Huser as [_ Hrow]%load_user_Some.
    rewrite (user_by_name_unique db1 current_user.1 current_user.2);
      [by destruct current_user|done..]. }
  unfold profile. rewrite Huser1, Hfound. simpl.
  exists (order_by_timestamp_desc (user_reviews db1 current_user.1)),
    (next_id (review_table db)), new_review.
  split_and!; try done.
  unfold order_by_timestamp_desc, user_reviews.
  rewrite elem_of_sorted_by, list_elem_of_filter, elem_of_query_all.
  split; [done|]. apply lookup_insert_eq.
Qed.

(** X24: a profile edit sets the bio to the form's field, to NULL when the
    form has none; without an uploaded avatar, or with one of empty file
    name, the avatar stays and no file is written; with one, exactly one
    file is written, with the upload's content, into the avatar folder under
    the name stored as the user's avatar; name, password hash and flags
    stay, and so does every other user. *)
Theorem X24_edit_profile_bio_and_avatar
    (secure_filename splitext_ext : string → string) (BASE_DIR : string)
    (db : DB) (sess : Session) (current_user : obj User) (form : Form)
    (files : Files) (uuid_hex : string) :
  load_user db sess = Some current_user →
  let edited :=
    edit_profile secure_filename splitext_ext BASE_DIR db sess POST form
      files uuid_hex in
  ∃ user',
    user_table (rep_db edited) !! current_user.1 = Some user'
    ∧ bio user' = form_get form "bio"
    ∧ username user' = username current_user.2
    ∧ password_hash user' = password_hash current_user.2
    ∧ has_completed_survey user' = has_completed_survey current_user.2
    ∧ is_admin user' = is_admin current_user.2
    ∧ (∀ id, id ≠ current_user.1 →
         user_table (rep_db edited) !! id = user_table db !! id)
    ∧ match head (snd <$> filter (λ kv, kv.1 = "avatar") files) with
      | Some file =>
          if decide (filename file = EmptyString) then
            avatar_path user' = avatar_path current_user.2
            ∧ rep_saved edited = []
          else
            rep_saved edited
            = [(os_path_join (AVATAR_UPLOAD_FOLDER BASE_DIR)
                  (avatar_path user'), content file)]
      | None =>
          avatar_path user' = avatar_path current_user.2
          ∧ rep_saved edited = []
      end.
Proof.
  intros Huser edited. unfold edited, edit_profile. rewrite Huser. simpl.
  eexists. split; [apply lookup_insert_eq|]. simpl.
  split_and!; try done.
  - intros id Hne. by rewrite lookup_insert_ne.
  - destruct (head _) as [file|]; [|done].
    destruct (decide (filename file = EmptyString)) as [Heq|Hne].
    + by rewrite decide_False by (by intros ?).
    + by rewrite decide_True.
Qed.

(** * The further properties at the sample data *)

Example os_path_join_samples :
  os_path_join "/srv/app" "static/uploads/avatars/"
  = "/srv/app/static/uploads/avatars/"
  ∧ os_path_join "/srv/app/" "a.png" = "/srv/app/a.png"
  ∧ os_path_join "/srv/app" "/etc/passwd" = "/etc/passwd"
  ∧ os_path_join EmptyString "a.png" = "a.png".
Proof. vm_compute. by split_and!. Qed.

Lemma X1_witness :
  preferred_genres sample_only_language 1 = []
  ∧ liked_movies sample_only_language 1 = []
  ∧ sorted_recommendations sample_only_language 1 = [].
Proof.
  assert (Hg : preferred_genres sample_only_language 1 = [])
    by (vm_compute; reflexivity).
  assert (Hl : liked_movies sample_only_language 1 = [])
    by (vm_compute; reflexivity).
  split; [exact Hg|]. split; [exact Hl|].
  exact (X1_no_genre_no_like_no_recommendation sample_only_language 1 Hg Hl).
Defined.

Lemma X2_witness :
  NoDup ((λ kv : obj Movie * Z, kv.1.1)
           <$> sorted_recommendations sample_surveyed 1).
Proof.
  exact (proj1 (X2_recommendations_distinct_catalogue_movies
                  sample_surveyed 1)).
Defined.

Lemma X3_witness :
  (1, m1, 15) ∈ sorted_recommendations sample_surveyed 1
  ∧ 15 <= 15 * Z.of_nat (size (id_set (genres sample_surveyed 1))).
Proof.
  assert (Hin : (1, m1, 15) ∈ sorted_recommendations sample_surveyed 1).
  { assert (sorted_recommendations sample_surveyed 1
            = [(1, m1, 15); (2, m2, 10)]) as ->
      by (vm_compute; reflexivity).
    left. }
  split; [exact Hin|].
  exact (proj2 (proj2 (X3_recommended_score_bounds sample_surveyed 1
                         (1, m1) 15 Hin))).
Defined.

Lemma X5_witness :
  sorted_recommendations
    (res_db (handle sample_int sample_affinity sample_hash decimal_eq_text
               sample_surveyed 0 (Some 1) (req_toggle_watchlist 2))) 1
  = sorted_recommendations sample_surveyed 1.
Proof.
  apply (X5_only_the_survey_changes_rankings sample_int sample_affinity
           sample_hash decimal_eq_text
           sample_surveyed 0 (Some 1) (req_toggle_watchlist 2) 1).
  intros method form. discriminate.
Defined.

Lemma X6_witness :
  load_user sample_two_users (Some 1) = Some sample_alice
  ∧ preferred_genres
      (res_db (survey decimal_eq_text sample_two_users (Some 1) POST
                 [("genres", "4")])) 2
    = preferred_genres sample_two_users 2.
Proof.
  assert (Huser : load_user sample_two_users (Some 1) = Some sample_alice)
    by (vm_compute; reflexivity).
  split; [exact Huser|].
  assert (Hne : 2 ≠ sample_alice.1) by (simpl; lia).
  exact (proj1 (proj2 (X6_survey_touches_only_the_submitter decimal_eq_text
                         sample_two_users (Some 1) POST [("genres", "4")]
                         sample_alice 2 Huser Hne))).
Defined.

Lemma X7_witness :
  load_user sample_registered (Some 1) = Some sample_alice_new
  ∧ res_db (survey decimal_eq_text sample_surveyed (Some 1) POST
              [("languages", "1"); ("genres", "1"); ("liked_movies", "3")])
    = sample_surveyed.
Proof.
  assert (Huser : load_user sample_registered (Some 1)
                  = Some sample_alice_new)
    by (vm_compute; reflexivity).
  split; [exact Huser|].
  exact (X7_survey_idempotent decimal_eq_text sample_registered (Some 1)
           [("languages", "1"); ("genres", "1"); ("liked_movies", "3")]
           sample_alice_new Huser).
Defined.

Lemma X8_witness :
  load_user sample_surveyed (Some 1) = Some sample_alice
  ∧ sample_int "abc" = None
  ∧ movie_detail sample_int sample_surveyed 0 (Some 1) POST
      [("rating", "abc")] 2
    = {| res_db := sample_surveyed; res_flash := [];
         res_out := Raise ValueError |}.
Proof.
  assert (Huser : load_user sample_surveyed (Some 1) = Some sample_alice)
    by (vm_compute; reflexivity).
  assert (Hmovie : is_Some (movie_table sample_surveyed !! 2))
    by (exists m2; vm_compute; reflexivity).
  assert (Hnone : user_review_of sample_surveyed 2 sample_alice.1 = None)
    by (vm_compute; reflexivity).
  assert (Hne : "abc" ≠ EmptyString) by discriminate.
  split; [exact Huser|]. split; [reflexivity|].
  exact (proj1 (X8_movie_detail_bad_rating_raises sample_int
                  sample_surveyed 0 (Some 1)
                  sample_alice 2 [("rating", "abc")] "abc"
                  Huser Hmovie Hnone eq_refl Hne) eq_refl).
Defined.

Lemma X9_witness :
  load_user sample_two_users (Some 2) = Some sample_bob
  ∧ review_table sample_two_users !! 1 = Some sample_review
  ∧ edit_review sample_affinity sample_two_users (Some 2) POST
      [("rating", "1"); ("review_text", "No.")] 1
    = {| res_db := sample_two_users; res_flash := [];
         res_out := Abort 403 |}.
Proof.
  assert (Huser : load_user sample_two_users (Some 2) = Some sample_bob)
    by (vm_compute; reflexivity).
  assert (Hreview : review_table sample_two_users !! 1 = Some sample_review)
    by (vm_compute; reflexivity).
  assert (Hother : review_user_id sample_review ≠ Some sample_bob.1)
    by discriminate.
  split; [exact Huser|]. split; [exact Hreview|].
  exact (proj2 (proj2 (X9_edit_review_not_found_or_forbidden
                         sample_affinity sample_two_users
                         (Some 2) sample_bob POST
                         [("rating", "1"); ("review_text", "No.")] 1 Huser))
           sample_review Hreview Hother).
Defined.

Lemma X10_witness :
  with_reviews
    (res_db (edit_review sample_affinity sample_reviewed (Some 1) POST
               [("rating", "3"); ("review_text", "Fine.")] 1))
    (review_table sample_reviewed)
  = sample_reviewed.
Proof.
  exact (proj2 (proj2 (X10_edit_review_frame sample_affinity
                         sample_reviewed (Some 1) POST
                         [("rating", "3"); ("review_text", "Fine.")] 1))).
Defined.

Lemma X11_witness :
  load_user sample_reviewed (Some 1) = Some sample_alice
  ∧ review_table sample_reviewed !! 1 = Some sample_review
  ∧ res_db (edit_review sample_affinity
              (res_db (edit_review sample_affinity sample_reviewed (Some 1)
                         POST [("rating", "1"); ("review_text", "Bad.")] 1))
              (Some 1) POST [("rating", "4"); ("review_text", "Good.")] 1)
    = res_db (edit_review sample_affinity sample_reviewed (Some 1) POST
                [("rating", "4"); ("review_text", "Good.")] 1).
Proof.
  assert (Huser : load_user sample_reviewed (Some 1) = Some sample_alice)
    by (vm_compute; reflexivity).
  assert (Hreview : review_table sample_reviewed !! 1 = Some sample_review)
    by (vm_compute; reflexivity).
  split; [exact Huser|]. split; [exact Hreview|].
  exact (X11_edit_review_last_write_wins sample_affinity sample_reviewed
           (Some 1)
           sample_alice 1 sample_review
           [("rating", "1"); ("review_text", "Bad.")]
           [("rating", "4"); ("review_text", "Good.")] "4" "Good."
           Huser Hreview eq_refl eq_refl eq_refl).
Defined.

Lemma X12_witness :
  movie_table
    (res_db (handle sample_int sample_affinity sample_hash decimal_eq_text
               sample_surveyed 0 (Some 1)
               (req_survey POST [("genres", "4")])))
  = movie_table sample_surveyed.
Proof.
  exact (proj1 (proj1 (X12_requests_keep_catalogue_and_accounts
                         sample_int sample_affinity
                         sample_secure_filename sample_splitext
                         sample_base_dir sample_hash decimal_eq_text
                         sample_surveyed _
                         (web_request _ _ _ _ _ _ _ sample_surveyed 0 (Some 1)
                            (req_survey POST [("genres", "4")]))))).
Defined.

Lemma sample_registered_reachable :
  reachable_app sample_secure_filename sample_splitext sample_base_dir
    sample_int sample_affinity sample_hash decimal_eq_text sample_registered.
Proof.
  eapply app_web.
  - eapply app_cli; [apply app_init|apply cli_seed].
  - exact (web_request _ _ _ _ _ _ _ seed_db 0 None
             (req_register POST
                [("username", "alice"); ("password", "secret")] "salt")).
Defined.

Lemma X13_witness : unique_usernames sample_registered.
Proof.
  exact (X13_usernames_stay_unique sample_int sample_affinity
           sample_secure_filename sample_splitext sample_base_dir
           sample_hash decimal_eq_text sample_registered
           sample_registered_reachable).
Defined.

Lemma X14_witness : references_resolve sample_registered.
Proof.
  exact (X14_foreign_keys_stay_valid sample_int sample_affinity
           sample_secure_filename sample_splitext sample_base_dir
           sample_hash decimal_eq_text sample_registered
           sample_registered_reachable).
Defined.

Lemma X15_witness :
  user_by_name seed_db "alice" = None
  ∧ user_by_name sample_registered "alice" = Some sample_alice_new.
Proof.
  assert (Hfree : user_by_name seed_db "alice" = None)
    by (vm_compute; reflexivity).
  split; [exact Hfree|].
  exact (proj1 (proj2 (X15_register_then_find sample_hash seed_db None
                         sample_form "salt" "alice" "secret"
                         eq_refl eq_refl eq_refl Hfree))).
Defined.

Lemma X16_witness :
  sample_check (sample_hash "secret" "salt") "secret" = true
  ∧ rep_session (login sample_check sample_registered None POST sample_form)
    = Some 1.
Proof.
  assert (Hcheck : sample_check (sample_hash "secret" "salt") "secret" = true)
    by (vm_compute; reflexivity).
  assert (Hfree : user_by_name seed_db "alice" = None)
    by (vm_compute; reflexivity).
  split; [exact Hcheck|].
  exact (f_equal rep_session
           (X16_register_then_login sample_check sample_hash seed_db None
              sample_form "salt" "alice" "secret"
              Hcheck eq_refl eq_refl eq_refl Hfree)).
Defined.

Lemma X17_witness :
  rep_session (login sample_check sample_registered None POST sample_form)
  = Some 1
  ∧ ∃ user, user_table sample_registered !! 1 = Some user
            ∧ username user = "alice".
Proof.
  assert (Hin : rep_session
                  (login sample_check sample_registered None POST sample_form)
                = Some 1)
    by (vm_compute; reflexivity).
  split; [exact Hin|].
  destruct (X17_login_only_with_matching_hash sample_check sample_registered
              POST sample_form 1 Hin)
    as (user & name & password & Hname & _ & Hrow & Huser & _).
  exists user. split; [exact Hrow|].
  rewrite Huser. injection Hname as <-. reflexivity.
Defined.

Lemma X18_witness :
  user_by_name seed_db "root" = None
  ∧ ∃ user,
      user_by_name
        (create_admin_command sample_hash seed_db "root" "toor" "salt")
        "root" = Some user
      ∧ is_admin user.2 = true.
Proof.
  assert (Hfree : user_by_name seed_db "root" = None)
    by (vm_compute; reflexivity).
  split; [exact Hfree|].
  eexists. split.
  - exact (proj1 (proj2 (X18_create_admin_promotes_or_creates sample_hash
                           seed_db "root" "toor" "salt") Hfree)).
  - reflexivity.
Defined.

Lemma X19_witness :
  load_user seed_db None = None
  ∧ watchlist_page seed_db None = login_redirect seed_db None.
Proof.
  split; [reflexivity|].
  exact (proj1 (proj2 (proj2 (proj2 (proj2 (proj2
           (X19_anonymous_requests_are_sent_to_login sample_int
              sample_affinity sample_secure_filename
              sample_splitext sample_base_dir sample_hash decimal_eq_text
              seed_db 0 None eq_refl))))))).
Defined.

Lemma X20_witness :
  load_user sample_surveyed (Some 1) = Some sample_alice
  ∧ language_by_name sample_surveyed "English"
    = Some (1, {| language_name := "English" |})
  ∧ ∃ listed,
      rep_out (genres_by_language sample_surveyed (Some 1) "English")
      = render_template
          (genres_by_language_html listed
             (1, {| language_name := "English" |}))
      ∧ NoDup listed.
Proof.
  assert (Huser : load_user sample_surveyed (Some 1) = Some sample_alice)
    by (vm_compute; reflexivity).
  assert (Hlang : language_by_name sample_surveyed "English"
                  = Some (1, {| language_name := "English" |}))
    by (vm_compute; reflexivity).
  split; [exact Huser|]. split; [exact Hlang|].
  destruct (X20_listed_genres_have_movies sample_surveyed (Some 1)
              sample_alice "English" (1, {| language_name := "English" |})
              Huser Hlang) as (listed & Hout & Hnodup & _).
  exists listed. split; [exact Hout|exact Hnodup].
Defined.

Lemma X21_witness :
  load_user sample_surveyed (Some 1) = Some sample_alice
  ∧ rep_out (genres_by_language sample_surveyed (Some 1) "Klingon")
    = abort 404.
Proof.
  assert (Huser : load_user sample_surveyed (Some 1) = Some sample_alice)
    by (vm_compute; reflexivity).
  split; [exact Huser|].
  apply (proj2 (X21_dashboard_languages_open_genre_pages sample_surveyed
                  (Some 1) sample_alice Huser) "Klingon").
  intros id l Hrow%elem_of_query_all.
  assert (query_all (language_table sample_surveyed)
          = [(1, {| language_name := "English" |});
             (2, {| language_name := "Hindi" |});
             (3, {| language_name := "Gujarati" |})]) as Hall
    by (vm_compute; reflexivity).
  rewrite Hall in Hrow.
  repeat (apply elem_of_cons in Hrow as [[= _ ->]|Hrow]; [discriminate|]).
  by apply elem_of_nil in Hrow.
Defined.

Lemma X22_witness :
  load_user sample_reviewed (Some 1) = Some sample_alice
  ∧ user_by_name sample_reviewed "alice" = Some sample_alice
  ∧ ∃ reviews,
      rep_out (profile sample_reviewed (Some 1) "alice")
      = render_template (profile_html sample_alice reviews)
      ∧ (1, sample_review) ∈ reviews.
Proof.
  assert (Huser : load_user sample_reviewed (Some 1) = Some sample_alice)
    by (vm_compute; reflexivity).
  assert (Hfound : user_by_name sample_reviewed "alice" = Some sample_alice)
    by (vm_compute; reflexivity).
  split; [exact Huser|]. split; [exact Hfound|].
  destruct (proj2 (X22_profile_lists_the_users_reviews sample_reviewed
                     (Some 1) sample_alice "alice" Huser)
              sample_alice Hfound) as (reviews & Hout & Hin & _).
  exists reviews. split; [exact Hout|].
  apply Hin. split; vm_compute; reflexivity.
Defined.

Lemma X23_witness :
  unique_usernames sample_surveyed
  ∧ load_user sample_surveyed (Some 1) = Some sample_alice
  ∧ ∃ reviews,
      rep_out (profile sample_reviewed (Some 1) "alice")
      = render_template (profile_html sample_alice reviews)
      ∧ reviews ≠ [].
Proof.
  assert (Huniq : unique_usernames sample_surveyed).
  { intros id1 id2 u1 u2 H1 H2 _.
    assert (user_table sample_surveyed = {[ 1 := sample_alice.2 ]}) as Ht
      by (vm_compute; reflexivity).
    rewrite Ht in H1, H2.
    apply lookup_singleton_Some in H1 as [<- _].
    by apply lookup_singleton_Some in H2 as [<- _]. }
  assert (Huser : load_user sample_surveyed (Some 1) = Some sample_alice)
    by (vm_compute; reflexivity).
  assert (Hmovie : is_Some (movie_table sample_surveyed !! 2))
    by (exists m2; vm_compute; reflexivity).
  assert (Hnone : user_review_of sample_surveyed 2 sample_alice.1 = None)
    by (vm_compute; reflexivity).
  assert (Hfits : fits_sqlite_integer 5) by (unfold fits_sqlite_integer; lia).
  split; [exact Huniq|]. split; [exact Huser|].
  assert (Hne : "5" ≠ EmptyString) by discriminate.
  destruct (X23_submitted_review_is_on_the_profile sample_int
              sample_surveyed 1700000000 (Some 1) sample_alice 2
              [("rating", "5"); ("review_text", "Mind-bending.")] "5" 5
              Huniq Huser Hmovie Hnone eq_refl Hne eq_refl Hfits)
    as (reviews & id & review & Hout & Hin & _).
  exists reviews. split; [exact Hout|].
  intros ->. by apply elem_of_nil in Hin.
Defined.

Lemma X24_witness :
  load_user sample_surveyed (Some 1) = Some sample_alice
  ∧ ∃ user',
      user_table
        (rep_db
           (edit_profile sample_secure_filename sample_splitext
              sample_base_dir sample_surveyed (Some 1) POST
              [("bio", "Film buff.")]
              [("avatar", {| filename := "me.png"; content := "PNG" |})]
              "0123456789abcdef0123456789abcdef")) !! 1
      = Some user'
      ∧ bio user' = Some "Film buff.".
Proof.
  assert (Huser : load_user sample_surveyed (Some 1) = Some sample_alice)
    by (vm_compute; reflexivity).
  split; [exact Huser|].
  destruct (X24_edit_profile_bio_and_avatar sample_secure_filename
              sample_splitext sample_base_dir sample_surveyed (Some 1)
              sample_alice [("bio", "Film buff.")]
              [("avatar", {| filename := "me.png"; content := "PNG" |})]
              "0123456789abcdef0123456789abcdef" Huser)
    as (user' & Hrow & Hbio & _).
  exists user'. split; [exact Hrow|exact Hbio].
Defined.

Example edit_profile_sample :
  rep_saved
    (edit_profile sample_secure_filename sample_splitext sample_base_dir
       sample_surveyed (Some 1) POST [("bio", "Film buff.")]
       [("avatar", {| filename := "me.png"; content := "PNG" |})]
       "0123456789abcdef0123456789abcdef")
  = [("/srv/app/static/uploads/avatars/alice_01234567.png", "PNG")].
Proof. vm_compute. reflexivity. Qed.
